(** * tegdb test-refactoring scripts: a shallow embedding

    The repository holds three Python scripts that classify and rewrite the
    Rust test files of tegdb:

    - [identify_platform_specific_tests.py]  (module [Identify])
    - [refactor_tests_for_wasm.py]           (module [Wasm])
    - [refactor_platform_specific_tests.py]  (modules [Platform] and
      [PlatformScript])

    Module [Platform] holds the functions of the third script as their
    text reads.  The script itself does not compile: line 59 is an f-string
    whose pattern braces are left single.  Module [PlatformScript] has the
    script as it is written, and what running it gives.

    Texts are Python [str] values.  They are modelled as lists of 8-bit
    characters (code points below 256), with Python's character classes on
    that range.  Files live in a finite map from paths to texts. *)

From Stdlib Require Import ZArith Ascii String List Bool Lia.
From stdpp Require Import base gmap strings list.

Open Scope Z_scope.
Open Scope nat_scope.

(** ** Texts and the [str] methods the scripts use *)

Module Text.

Abbreviation text := (list ascii).

Definition txt (s : string) : text := list_ascii_of_string s.

Definition nl : ascii := ascii_of_nat 10.
Definition dq : ascii := ascii_of_nat 34.
Definition lbrace : ascii := ascii_of_nat 123.
Definition rbrace : ascii := ascii_of_nat 125.

Definition chr_eqb (a b : ascii) : bool := Ascii.eqb a b.

Definition code (c : ascii) : nat := nat_of_ascii c.

Definition between (lo hi : nat) (c : ascii) : bool :=
  (lo <=? code c) && (code c <=? hi).

(** [str.isspace] on one character (also the class [\s] of [re]). *)
Definition is_space (c : ascii) : bool :=
  between 9 13 c || between 28 32 c
  || (code c =? 133) || (code c =? 160).

(** The class [\w] of [re] on a [str] pattern. *)
Definition is_word (c : ascii) : bool :=
  between 48 57 c || between 65 90 c || between 97 122 c || (code c =? 95)
  || (code c =? 170) || (code c =? 178) || (code c =? 179) || (code c =? 181)
  || (code c =? 185) || (code c =? 186) || between 188 190 c
  || between 192 214 c || between 216 246 c || between 248 255 c.

(** [str.lower] on one character. *)
Definition lower_chr (c : ascii) : ascii :=
  if between 65 90 c || between 192 214 c || between 216 222 c
  then ascii_of_nat (code c + 32) else c.

Definition lower (s : text) : text := map lower_chr s.

(** [s.startswith(p)], returning the rest of [s] after [p]. *)
Fixpoint strip_prefix (p s : text) : option text :=
  match p with
  | [] => Some s
  | a :: p' =>
      match s with
      | [] => None
      | b :: s' => if chr_eqb a b then strip_prefix p' s' else None
      end
  end.

Definition startswith (s p : text) : bool :=
  match strip_prefix p s with Some _ => true | None => false end.

(** [sub in s] *)
Fixpoint contains (sub s : text) : bool :=
  startswith s sub ||
  match s with
  | [] => false
  | _ :: s' => contains sub s'
  end.

(** [any(p in s for p in ps)] *)
Definition any_in (ps : list text) (s : text) : bool :=
  existsb (fun p => contains p s) ps.

(** [s.find(sub, start)]: [None] stands for Python's [-1]. *)
Fixpoint find_at (sub s : text) (i : nat) : option nat :=
  if startswith s sub then Some i
  else match s with
       | [] => None
       | _ :: s' => find_at sub s' (S i)
       end.

Definition find_from (sub s : text) (start : nat) : option nat :=
  if length s <? start then None else find_at sub (drop start s) start.

(** [s.split('\n')] *)
Fixpoint split_nl (s : text) : list text :=
  match s with
  | [] => [[]]
  | c :: s' =>
      if chr_eqb c nl then [] :: split_nl s'
      else match split_nl s' with
           | l :: ls => (c :: l) :: ls
           | [] => [[c]]
           end
  end.

(** ['\n'.join(ls)] *)
Fixpoint join_nl (ls : list text) : text :=
  match ls with
  | [] => []
  | [l] => l
  | l :: ls' => l ++ nl :: join_nl ls'
  end.

(** [s.lstrip()], [s.rstrip()] and [s.strip()] *)
Fixpoint lstrip (s : text) : text :=
  match s with
  | c :: s' => if is_space c then lstrip s' else s
  | [] => []
  end.

Fixpoint rstrip (s : text) : text :=
  match s with
  | [] => []
  | c :: s' =>
      match rstrip s' with
      | [] => if is_space c then [] else [c]
      | r => c :: r
      end
  end.

Definition strip (s : text) : text := rstrip (lstrip s).

(** [s.replace(old, new)] for a non-empty [old]: occurrences are taken from
    the left and do not overlap.  [skip] counts the characters of a
    replaced occurrence that remain to be passed over. *)
Fixpoint replace_go (old new : text) (skip : nat) (s : text) : text :=
  match s with
  | [] => []
  | c :: s' =>
      match skip with
      | S k => replace_go old new k s'
      | O =>
          if startswith s old
          then new ++ replace_go old new (length old - 1) s'
          else c :: replace_go old new 0 s'
      end
  end.

(** For an empty [old] Python puts [new] before every character and at the
    end. *)
Definition replace (old new s : text) : text :=
  match old with
  | [] => new ++ flat_map (fun c => c :: new) s
  | _ => replace_go old new 0 s
  end.

(** [s[i:j]] for [0 <= i], [0 <= j] *)
Definition slice (s : text) (i j : nat) : text := take (j - i) (drop i s).

End Text.

Import Text.

(** ** identify_platform_specific_tests.py *)

Module Identify.

Inductive category := platform_specific | backend_agnostic | mixed.

(** The four indicators of [scan_test_files], lines 26-29. *)
Definition has_storage_engine (content : text) : bool :=
  contains (txt "StorageEngine::new") content.

Definition has_file_ops (content : text) : bool :=
  any_in [txt "fs::remove_file"; txt "tempfile::"; txt "PathBuf::from"] content.

Definition has_run_with_both_backends (content : text) : bool :=
  contains (txt "run_with_both_backends") content.

Definition has_database_api (content : text) : bool :=
  contains (txt "Database::open") content.

(** The categorisation of one file, lines 32-41. *)
Definition categorize (content : text) : category :=
  if has_storage_engine content || has_file_ops content then
    if has_run_with_both_backends content || has_database_api content
    then mixed
    else platform_specific
  else if has_run_with_both_backends content || has_database_api content
  then backend_agnostic
  else backend_agnostic.

(** The three result lists of [scan_test_files]. *)
Record buckets := Buckets {
  b_platform_specific : list string;
  b_backend_agnostic : list string;
  b_mixed : list string
}.

Definition file_into (b : buckets) (test_file : string) (content : text)
  : buckets :=
  match categorize content with
  | mixed =>
      Buckets (b_platform_specific b) (b_backend_agnostic b)
              (b_mixed b ++ [test_file])
  | platform_specific =>
      Buckets (b_platform_specific b ++ [test_file]) (b_backend_agnostic b)
              (b_mixed b)
  | backend_agnostic =>
      Buckets (b_platform_specific b) (b_backend_agnostic b ++ [test_file])
              (b_mixed b)
  end.

(** [scan_test_files]: [test_files] is the result of the glob; reading a
    missing file raises, which is [None] here. *)
Fixpoint scan_loop (fs : gmap string text) (test_files : list string)
  (b : buckets) : option buckets :=
  match test_files with
  | [] => Some b
  | test_file :: rest =>
      match fs !! test_file with
      | Some content => scan_loop fs rest (file_into b test_file content)
      | None => None
      end
  end.

Definition scan_test_files (fs : gmap string text) (test_files : list string)
  : option buckets :=
  scan_loop fs test_files (Buckets [] [] []).

End Identify.

(** ** The fragment of Python's [re] the scripts use

    A backtracking matcher in continuation-passing style: alternatives are
    tried in Python's order (greedy repetition takes the longest run first,
    lazy repetition the shortest), and the first success wins.  Every
    repetition in the scripts' patterns is over a character class. *)

Module Re.

Inductive regex :=
| Lit (s : text)                 (* literal characters *)
| Cls (p : ascii -> bool)        (* one character of a class *)
| Star (p : ascii -> bool)       (* [c*], greedy *)
| Plus (p : ascii -> bool)       (* [c+], greedy *)
| LazyStar (p : ascii -> bool)   (* [c*?] *)
| Opt (r : regex)                (* [(?:r)?], greedy *)
| Seq (r1 r2 : regex)
| Group (n : nat) (r : regex).   (* capturing group number [n] *)

Definition seq (rs : list regex) : regex := foldr Seq (Lit []) rs.

(** Character classes of the patterns. *)
Definition space : ascii -> bool := is_space.          (* \s *)
Definition word : ascii -> bool := is_word.            (* \w *)
Definition dot : ascii -> bool := fun c => negb (chr_eqb c nl).   (* . *)
Definition non (s : string) : ascii -> bool :=          (* [^...] *)
  fun c => negb (existsb (chr_eqb c) (txt s)).

Abbreviation spans := (list (nat * (nat * nat))).

Fixpoint star_greedy {A} (p : ascii -> bool) (s : text) (i : nat)
  (k : text -> nat -> option A) : option A :=
  match s with
  | c :: s' =>
      if p c then
        match star_greedy p s' (S i) k with
        | Some a => Some a
        | None => k s i
        end
      else k s i
  | [] => k s i
  end.

Fixpoint star_lazy {A} (p : ascii -> bool) (s : text) (i : nat)
  (k : text -> nat -> option A) : option A :=
  match k s i with
  | Some a => Some a
  | None =>
      match s with
      | c :: s' => if p c then star_lazy p s' (S i) k else None
      | [] => None
      end
  end.

(** [run r s i g k]: match [r] against [s], the text from offset [i] on,
    with the group spans [g] recorded so far, then continue with [k]. *)
Fixpoint run {A} (r : regex) (s : text) (i : nat) (g : spans)
  (k : text -> nat -> spans -> option A) : option A :=
  match r with
  | Lit l =>
      match strip_prefix l s with
      | Some s' => k s' (i + length l) g
      | None => None
      end
  | Cls p =>
      match s with
      | c :: s' => if p c then k s' (S i) g else None
      | [] => None
      end
  | Star p => star_greedy p s i (fun s' j => k s' j g)
  | Plus p =>
      match s with
      | c :: s' =>
          if p c then star_greedy p s' (S i) (fun s'' j => k s'' j g)
          else None
      | [] => None
      end
  | LazyStar p => star_lazy p s i (fun s' j => k s' j g)
  | Opt r' =>
      match run r' s i g k with
      | Some a => Some a
      | None => k s i g
      end
  | Seq r1 r2 => run r1 s i g (fun s' j g' => run r2 s' j g' k)
  | Group n r' => run r' s i g (fun s' j g' => k s' j ((n, (i, j)) :: g'))
  end.

(** A match object: [m.start()], [m.end()] and the spans of its groups. *)
Record rmatch := Match {
  m_start : nat;
  m_end : nat;
  m_groups : spans
}.

(** [pattern.match] at offset [i], where [s] is the text from [i] on. *)
Definition match_at (r : regex) (s : text) (i : nat) : option rmatch :=
  run r s i [] (fun _ j g => Some (Match i j g)).

Fixpoint span_of (n : nat) (g : spans) : option (nat * nat) :=
  match g with
  | [] => None
  | (n', sp) :: g' => if n =? n' then Some sp else span_of n g'
  end.

(** [m.group(0)] and [m.group(n)] of a match in [content]. *)
Definition group0 (content : text) (m : rmatch) : text :=
  slice content (m_start m) (m_end m).

Definition group (content : text) (m : rmatch) (n : nat) : text :=
  match span_of n (m_groups m) with
  | Some (a, b) => slice content a b
  | None => []
  end.

(** [re.search(r, content)] *)
Fixpoint search_go (r : regex) (s : text) (i : nat) : option rmatch :=
  match match_at r s i with
  | Some m => Some m
  | None =>
      match s with
      | [] => None
      | _ :: s' => search_go r s' (S i)
      end
  end.

Definition search (r : regex) (content : text) : option rmatch :=
  search_go r content 0.

(** [list(re.finditer(r, content))]: matches from the left, each search
    resuming where the previous match ended.  [skip] counts the characters
    of the last match still to pass over. *)
Fixpoint finditer_go (r : regex) (s : text) (i skip : nat) : list rmatch :=
  match s with
  | [] => []
  | _ :: s' =>
      match skip with
      | S k => finditer_go r s' (S i) k
      | O =>
          match match_at r s i with
          | Some m => m :: finditer_go r s' (S i) (m_end m - i - 1)
          | None => finditer_go r s' (S i) 0
          end
      end
  end.

Definition finditer (r : regex) (content : text) : list rmatch :=
  finditer_go r content 0 0.

(** [re.sub(r, repl, content)] with [repl] a function of the match. *)
Fixpoint sub_go (r : regex) (repl : rmatch -> text) (s : text) (i skip : nat)
  : text :=
  match s with
  | [] => []
  | c :: s' =>
      match skip with
      | S k => sub_go r repl s' (S i) k
      | O =>
          match match_at r s i with
          | Some m =>
              if m_end m =? i
              then repl m ++ c :: sub_go r repl s' (S i) 0
              else repl m ++ sub_go r repl s' (S i) (m_end m - i - 1)
          | None => c :: sub_go r repl s' (S i) 0
          end
      end
  end.

Definition sub (r : regex) (repl : rmatch -> text) (content : text) : text :=
  sub_go r repl content 0 0.

End Re.

(** ** The file system the scripts act on *)

Module Fs.

(** The effects the scripts have on files, in the order they happen. *)
Inductive fs_op :=
| OpCopy (src dst : string)
| OpWrite (path : string) (data : text).

Record world := World {
  files : gmap string text;
  ops : list fs_op
}.

(** [open(path, 'r').read()]; a missing file raises. *)
Definition read_file (path : string) (w : world) : option text :=
  files w !! path.

(** [shutil.copy2(src, dst)]: raises when [src] is missing or is [dst]
    itself; an existing [dst] is replaced. *)
Definition copy2 (src dst : string) (w : world) : option world :=
  if decide (src = dst) then None
  else match files w !! src with
       | Some data =>
           Some (World (<[dst := data]> (files w)) (ops w ++ [OpCopy src dst]))
       | None => None
       end.

(** [open(path, 'w').write(data)] *)
Definition write_file (path : string) (data : text) (w : world) : world :=
  World (<[path := data]> (files w)) (ops w ++ [OpWrite path data]).

(** The block that ends every refactoring function (lines 79-86, 208-214
    and 257-263 of refactor_platform_specific_tests.py, lines 199-207 of
    refactor_tests_for_wasm.py): the backup copy, then the write. *)
Definition backup_and_write (path backup_path : string) (content : text)
  (w : world) : option world :=
  match copy2 path backup_path w with
  | Some w1 => Some (write_file path content w1)
  | None => None
  end.

End Fs.

Import Re Fs.

(** ** refactor_tests_for_wasm.py *)

Module Wasm.

Fixpoint text_eqb (a b : text) : bool :=
  match a, b with
  | [], [] => true
  | x :: a', y :: b' => chr_eqb x y && text_eqb a' b'
  | _, _ => false
  end.

(** [x in S] for a set of strings *)
Definition mem (x : text) (S : list text) : bool := existsb (text_eqb x) S.

Definition PLATFORM_SPECIFIC_TESTS : list text :=
  [ txt "test_absolute_path_requirement";
    txt "temp_db_path";
    txt "remove_file_if_file_backend";
    txt "create_test_db";
    txt "setup_test_table";
    txt "measure_sql_execution";
    txt "measure_transaction_sql_execution";
    txt "run_comprehensive_performance_suite" ].

Definition PLATFORM_SPECIFIC_FILES : list text :=
  [ txt "engine_tests.rs";
    txt "high_level_api_performance_test.rs";
    txt "schema_performance_test.rs";
    txt "wasm_tests.rs";
    txt "test_helpers.rs" ].

Definition is_platform_specific_test (test_name : text) : bool :=
  mem test_name PLATFORM_SPECIFIC_TESTS.

Definition is_platform_specific_file (filename : text) : bool :=
  mem filename PLATFORM_SPECIFIC_FILES.

Record test_info := TestInfo {
  name : text;
  return_type : text;
  body : text;
  already_uses_rwb : bool;
  is_simple_test : bool
}.

Definition extract_test_function_info (content : text) (test_match : rmatch)
  : test_info :=
  let test_name := group content test_match 1 in
  let return_type := group content test_match 2 in
  let function_body := group content test_match 3 in
  TestInfo test_name return_type function_body
    (contains (txt "run_with_both_backends(") function_body)
    (negb (any_in [txt "database::open"; txt "db.execute"; txt "db.query";
                   txt "database::open"] (lower function_body))).

(** The line filter of [refactor_test_function], lines 86-93. *)
Definition keep_line (line : text) : bool :=
  let stripped := strip line in
  negb (match stripped with [] => true | _ => false end
        || startswith stripped (txt "//")).

Definition collect_lines (lines : list text) : list text :=
  fold_left (fun test_lines line =>
               if keep_line line then test_lines ++ [line] else test_lines)
            lines [].

(** [None] is Python's [None]. *)
Definition refactor_test_function (info : test_info) : option text :=
  if already_uses_rwb info then None
  else if is_simple_test info then None
  else
    let lines := split_nl (body info) in
    let test_lines := collect_lines lines in
    match test_lines with
    | [] => None
    | _ =>
        Some (txt "    run_with_both_backends(" ++ dq :: name info
                ++ dq :: txt ", |db_path| {" ++ nl :: join_nl test_lines
                ++ nl :: txt "        Ok(())" ++ nl :: txt "    })")
    end.

(** The pattern of line 118:
    [#\[test\]\s*\nfn\s+(\w+)\s*\([^)]*\)\s*->\s*(Result<\(\)(?:,\s*tegdb::Error)?>)\s*\{([^}]+)\}] *)
Definition test_pattern : regex :=
  seq [ Lit (txt "#[test]"); Star space; Lit [nl]; Lit (txt "fn"); Plus space;
        Group 1 (Plus word); Star space;
        Lit (txt "("); Star (non ")"); Lit (txt ")"); Star space;
        Lit (txt "->"); Star space;
        Group 2 (seq [ Lit (txt "Result<()");
                       Opt (seq [Lit (txt ","); Star space;
                                 Lit (txt "tegdb::Error")]);
                       Lit (txt ">") ]);
        Star space; Lit (txt "{"); Group 3 (Plus (non "}")); Lit (txt "}") ].

(** The pattern of line 182: [(use\s+.*?;)\s*\n] *)
Definition use_pattern : regex :=
  seq [ Group 1 (seq [Lit (txt "use"); Plus space; LazyStar dot;
                      Lit (txt ";")]);
        Star space; Lit [nl] ].

(** The loop of lines 160-167 over [content[brace_start:]], with [i] the
    offset of the first character of [s].  It returns [brace_end], which
    keeps its initial value [brace_start] when the loop never breaks. *)
Fixpoint scan_braces (s : text) (i : nat) (brace_count : Z)
  (brace_start : nat) : nat :=
  match s with
  | [] => brace_start
  | char :: s' =>
      if chr_eqb char lbrace then
        scan_braces s' (S i) (brace_count + 1)%Z brace_start
      else if chr_eqb char rbrace then
        let brace_count := (brace_count - 1)%Z in
        if (brace_count =? 0)%Z then i + 1
        else scan_braces s' (S i) brace_count brace_start
      else scan_braces s' (S i) brace_count brace_start
  end.

Definition find_brace_end (content : text) (brace_start : nat) : nat :=
  scan_braces (drop brace_start content) brace_start 0%Z brace_start.

(** One round of the loop of lines 129-177; the state is
    [(new_content, modified)]. *)
Definition process_match (content : text) (st : text * bool)
  (test_match : rmatch) : text * bool :=
  let '(new_content, modified) := st in
  let info := extract_test_function_info content test_match in
  if is_platform_specific_test (name info) then st
  else if already_uses_rwb info then st
  else if is_simple_test info then st
  else
    match refactor_test_function info with
    | None | Some [] => st
    | Some refactored_body =>
        let start_pos := m_start test_match in
        match find_from (txt "{") content start_pos with
        | Some brace_start =>
            let brace_end := find_brace_end content brace_start in
            (take (brace_start + 1) new_content
               ++ nl :: refactored_body ++ nl :: drop brace_end new_content,
             true)
        | None => st
        end
    end.

Definition process_matches (content : text) (test_matches : list rmatch)
  : text * bool :=
  fold_left (process_match content) (rev test_matches) (content, false).

(** Lines 180-196: the import of the harness. *)
Definition add_import (new_content : text) : text :=
  let use_matches := finditer use_pattern new_content in
  match last use_matches with
  | Some last_use =>
      let insert_pos := m_end last_use in
      take insert_pos new_content
        ++ nl :: txt "use test_helpers::run_with_both_backends;"
        ++ nl :: drop insert_pos new_content
  | None =>
      txt "use test_helpers::run_with_both_backends;" ++ nl :: nl
        :: new_content
  end.

(** The text [refactor_test_file] computes from the file's content, and
    whether it differs ([modified]). *)
Definition refactor_content (content : text) : text * bool :=
  let needs_test_helpers_import :=
    negb (contains (txt "use test_helpers::run_with_both_backends;") content) in
  let test_matches := finditer test_pattern content in
  match test_matches with
  | [] => (content, false)
  | _ =>
      let '(new_content, modified) := process_matches content test_matches in
      let new_content :=
        if modified && needs_test_helpers_import
        then add_import new_content else new_content in
      (new_content, modified)
  end.

(** [refactor_test_file(filepath)]: the value returned and the world left
    behind; [None] when an exception escapes. *)
Definition refactor_test_file (filepath : string) (w : world)
  : option (bool * world) :=
  match read_file filepath w with
  | None => None
  | Some content =>
      let '(new_content, modified) := refactor_content content in
      if modified then
        let backup_path := (filepath +:+ ".backup")%string in
        match backup_and_write filepath backup_path new_content w with
        | Some w' => Some (true, w')
        | None => None
        end
      else Some (false, w)
  end.

End Wasm.

(** ** refactor_platform_specific_tests.py: the text of its functions

    What each function of the script would compute, read line by line.
    None of them can be called from the script as it is written: see
    [PlatformScript.run_script] for what running the script gives. *)

Module Platform.

Definition skip_lines : list text :=
  [ txt "let path = temp_db_path";
    txt "fs::remove_file";
    txt "if path.exists()";
    txt "let mut engine = StorageEngine::new";
    txt "let engine = StorageEngine::new";
    txt "let engine2 = StorageEngine::new";
    txt "let engine2_result = StorageEngine::new";
    txt "let _engine3 = StorageEngine::new";
    txt "let engine1 = StorageEngine::new" ].

Definition open_db_line : text := txt "        let mut db = Database::open(db_path)?;".
Definition begin_tx_line : text := txt "        let mut tx = db.begin_transaction()?;".
Definition todo_tx_set : text := txt "        // TODO: Convert tx.set to SQL operation".
Definition todo_tx_get : text := txt "        // TODO: Convert tx.get to SQL query".
Definition todo_tx_delete : text := txt "        // TODO: Convert tx.delete to SQL DELETE".
Definition commit_line : text := txt "        tx.commit()?;".
Definition rollback_line : text := txt "        tx.rollback()?;".
Definition todo_assert : text :=
  txt "        // TODO: Convert engine.get assertion to database query".

(** The body of the loop of lines 108-165: [new_lines] after one [line]. *)
Definition convert_line (new_lines : list text) (line : text) : list text :=
  let stripped := strip line in
  if any_in skip_lines stripped then new_lines
  else if contains (txt "engine.set(") stripped then new_lines
  else if contains (txt "engine.get(") stripped then new_lines
  else if contains (txt "engine.delete(") stripped then new_lines
  else if contains (txt "engine.begin_transaction()") stripped then
    (new_lines ++ [open_db_line]) ++ [begin_tx_line]
  else if contains (txt "tx.set(") stripped then new_lines ++ [todo_tx_set]
  else if contains (txt "tx.get(") stripped then new_lines ++ [todo_tx_get]
  else if contains (txt "tx.delete(") stripped then
    new_lines ++ [todo_tx_delete]
  else if contains (txt "tx.commit()") stripped then new_lines ++ [commit_line]
  else if contains (txt "tx.rollback()") stripped then
    new_lines ++ [rollback_line]
  else if contains (txt "assert_eq!") stripped
          && contains (txt "engine.get(") stripped then
    new_lines ++ [todo_assert]
  else new_lines ++ [line].

Definition convert_lines (lines : list text) : list text :=
  fold_left convert_line lines [].

(** [test_name] is not used by the function. *)
Definition convert_storage_engine_to_database (test_body test_name : text)
  : text :=
  join_nl (convert_lines (split_nl test_body)).

(** The f-string of lines 69-75, 198-204 and 247-253. *)
Definition wrapped_function (test_name inner : text) : text :=
  txt "#[test]" ++ nl ::
  txt "fn " ++ test_name ++ txt "() -> Result<()> {" ++ nl ::
  txt "    run_with_both_backends(" ++ dq :: test_name ++ dq ::
    txt ", |db_path| {" ++ nl ::
  inner ++ nl ::
  txt "        Ok(())" ++ nl ::
  txt "    })" ++ nl ::
  txt "}".

Definition harness_import : text :=
  txt "use test_helpers::run_with_both_backends;".

(** Lines 23-27, 177-181 and 227-231. *)
Definition add_imports (content : text) : text :=
  if negb (contains harness_import content) then
    replace (txt "use tegdb::{Result, SqlValue};")
            (txt "use tegdb::{Result, SqlValue};" ++ nl :: harness_import)
            content
  else content.

(** [fn temp_db_path\([^)]*\)[^{]*\{[^}]*\}] *)
Definition temp_db_path_pattern : regex :=
  seq [ Lit (txt "fn temp_db_path("); Star (non ")"); Lit (txt ")");
        Star (non "{"); Lit (txt "{"); Star (non "}"); Lit (txt "}") ].

Definition test_functions : list text :=
  [ txt "test_transaction_commit";
    txt "test_transaction_rollback";
    txt "test_transaction_empty_commit";
    txt "test_transaction_empty_rollback";
    txt "test_transaction_snapshot_isolation";
    txt "test_sequential_transactions";
    txt "test_double_commit_fails";
    txt "test_commit_after_rollback_fails";
    txt "test_delete_then_set_in_transaction";
    txt "test_durability_after_commit";
    txt "test_large_transaction_memory_usage";
    txt "test_transaction_get_behaviour";
    txt "test_transaction_scan_behaviour";
    txt "test_implicit_rollback_on_drop";
    txt "test_transaction_snapshot_after_rollback";
    txt "test_transaction_error_propagation_in_transaction";
    txt "test_pure_transaction_crash_recovery" ].

(** The regular expression that line 59 spells, with the test's name
    spliced in:
    [#\[test\]\s*\nfn\s+{test_name}\s*\([^)]*\)\s*->\s*Result<\(\)>\s*\{([^}]+)\}]
    The line writes it as an f-string and leaves the braces of the pattern
    single; Python reads [{([^}] as a replacement field and rejects the
    line ([PlatformScript.line_59]).  This definition is the pattern the
    author meant, not one the script ever builds. *)
Definition named_pattern (test_name : text) : regex :=
  seq [ Lit (txt "#[test]"); Star space; Lit [nl]; Lit (txt "fn"); Plus space;
        Lit test_name; Star space;
        Lit (txt "("); Star (non ")"); Lit (txt ")"); Star space;
        Lit (txt "->"); Star space; Lit (txt "Result<()>"); Star space;
        Lit (txt "{"); Group 1 (Plus (non "}")); Lit (txt "}") ].

(** One round of the loop of lines 57-77, with that pattern. *)
Definition refactor_named (content test_name : text) : text :=
  match search (named_pattern test_name) content with
  | Some m =>
      let test_body := group content m 1 in
      let new_body := convert_storage_engine_to_database test_body test_name in
      let new_function := wrapped_function test_name new_body in
      replace (group0 content m) new_function content
  | None => content
  end.

(** The text [refactor_transaction_tests] writes, from the text it read. *)
Definition transaction_tests_content (content : text) : text :=
  let content := add_imports content in
  let content := sub temp_db_path_pattern (fun _ => []) content in
  let content := replace (txt "use std::fs;") [] content in
  let content := replace (txt "use std::path::PathBuf;") [] content in
  fold_left refactor_named test_functions content.

Definition refactor_transaction_tests (w : world) : option (bool * world) :=
  match read_file "tests/transaction_tests.rs" w with
  | None => None
  | Some content =>
      match backup_and_write "tests/transaction_tests.rs"
              "tests/transaction_tests.rs.backup"
              (transaction_tests_content content) w with
      | Some w' => Some (true, w')
      | None => None
      end
  end.

(** The pattern of lines 192 and 241:
    [#\[test\]\s*\nfn\s+(\w+)\s*\([^)]*\)\s*->\s*Result<\(\)>\s*\{([^}]+)\}] *)
Definition test_pattern : regex :=
  seq [ Lit (txt "#[test]"); Star space; Lit [nl]; Lit (txt "fn"); Plus space;
        Group 1 (Plus word); Star space;
        Lit (txt "("); Star (non ")"); Lit (txt ")"); Star space;
        Lit (txt "->"); Star space; Lit (txt "Result<()>"); Star space;
        Lit (txt "{"); Group 2 (Plus (non "}")); Lit (txt "}") ].

(** [replace_test] of lines 194-204 and 243-253. *)
Definition replace_test (content : text) (m : rmatch) : text :=
  let test_name := group content m 1 in
  let test_body := group content m 2 in
  wrapped_function test_name test_body.

(** [std::fs::remove_file\([^)]*\);] *)
Definition remove_file_pattern : regex :=
  seq [ Lit (txt "std::fs::remove_file("); Star (non ")"); Lit (txt ");") ].

(** [fs::metadata\([^)]*\)\.unwrap\(\)\.len\(\);] *)
Definition metadata_pattern : regex :=
  seq [ Lit (txt "fs::metadata("); Star (non ")");
        Lit (txt ").unwrap().len();") ].

(** The text [refactor_commit_marker_tests] writes, from the text it read. *)
Definition commit_marker_tests_content (content : text) : text :=
  let content := add_imports content in
  let content := sub remove_file_pattern (fun _ => []) content in
  let content := replace (txt "StorageEngine::new") (txt "Database::open")
                   content in
  let content :=
    replace (txt "engine.set(")
      (txt "db.execute(" ++ dq ::
       txt "INSERT INTO test (key, value) VALUES (?, ?)" ++ dq :: txt ", ")
      content in
  let content :=
    replace (txt "engine.get(")
      (txt "db.query(" ++ dq ::
       txt "SELECT value FROM test WHERE key = ?" ++ dq :: txt ", ")
      content in
  sub test_pattern (replace_test content) content.

Definition refactor_commit_marker_tests (w : world) : option (bool * world) :=
  match read_file "tests/commit_marker_tests.rs" w with
  | None => None
  | Some content =>
      match backup_and_write "tests/commit_marker_tests.rs"
              "tests/commit_marker_tests.rs.backup"
              (commit_marker_tests_content content) w with
      | Some w' => Some (true, w')
      | None => None
      end
  end.

(** The text [refactor_read_only_transaction_test] writes. *)
Definition read_only_transaction_test_content (content : text) : text :=
  let content := add_imports content in
  let content := sub remove_file_pattern (fun _ => []) content in
  let content := sub metadata_pattern (fun _ => []) content in
  let content := replace (txt "StorageEngine::new") (txt "Database::open")
                   content in
  sub test_pattern (replace_test content) content.

Definition refactor_read_only_transaction_test (w : world)
  : option (bool * world) :=
  match read_file "tests/read_only_transaction_test.rs" w with
  | None => None
  | Some content =>
      match backup_and_write "tests/read_only_transaction_test.rs"
              "tests/read_only_transaction_test.rs.backup"
              (read_only_transaction_test_content content) w with
      | Some w' => Some (true, w')
      | None => None
      end
  end.

End Platform.

(** ** Notions used to state the properties *)

Module Props.

(** The raw brace depth of a text: every [{] counts +1 and every [}]
    counts -1, wherever it stands. *)
Definition brace_delta (c : ascii) : Z :=
  if chr_eqb c lbrace then 1%Z
  else if chr_eqb c rbrace then (-1)%Z
  else 0%Z.

Fixpoint depth (s : text) : Z :=
  match s with
  | [] => 0%Z
  | c :: s' => (brace_delta c + depth s')%Z
  end.

(** Specification side (spec 4.2 and 9): the lexical pre-pass that tags
    literal regions.  String literals run from a double quote to the next
    unescaped double quote; comments are [// ...] to the end of the line
    and [/* ... */].  [erase_literals] blanks every character inside such
    a region, so that a scan which ignores delimiters inside literals gives
    the same result before and after. *)
Inductive lex_state :=
| Code | Str | StrEsc | Line | BlockOpen | Block | BlockClose.

Definition blank : ascii := ascii_of_nat 32.
Definition backslash : ascii := ascii_of_nat 92.

Fixpoint erase_from (st : lex_state) (s : text) : text :=
  match s with
  | [] => []
  | c :: s' =>
      match st with
      | Code =>
          if chr_eqb c dq then c :: erase_from Str s'
          else if startswith s (txt "//") then c :: erase_from Line s'
          else if startswith s (txt "/*") then c :: erase_from BlockOpen s'
          else c :: erase_from Code s'
      | Str =>
          if chr_eqb c backslash then blank :: erase_from StrEsc s'
          else if chr_eqb c dq then c :: erase_from Code s'
          else blank :: erase_from Str s'
      | StrEsc => blank :: erase_from Str s'
      | Line =>
          if chr_eqb c nl then c :: erase_from Code s'
          else blank :: erase_from Line s'
      | BlockOpen => c :: erase_from Block s'
      | Block =>
          if startswith s (txt "*/") then c :: erase_from BlockClose s'
          else blank :: erase_from Block s'
      | BlockClose => c :: erase_from Code s'
      end
  end.

Definition erase_literals (s : text) : text := erase_from Code s.

(** The line kinds of the claim about low-level calls. *)
Definition is_get_line (line : text) : bool :=
  any_in [txt "engine.get("; txt "tx.get("] (strip line).

Definition is_set_line (line : text) : bool :=
  any_in [txt "engine.set("; txt "tx.set("] (strip line).

Definition is_delete_line (line : text) : bool :=
  any_in [txt "engine.delete("; txt "tx.delete("] (strip line).

(** A line that performs a low-level get, set or delete call. *)
Definition low_level_call (line : text) : bool :=
  is_get_line line || is_set_line line || is_delete_line line.

(** A located function the loop of [Wasm.refactor_test_file] leaves alone:
    platform-specific by name, already converted, or simple. *)
Definition skipped (content : text) (m : rmatch) : bool :=
  let info := Wasm.extract_test_function_info content m in
  Wasm.is_platform_specific_test (Wasm.name info)
  || Wasm.already_uses_rwb info
  || Wasm.is_simple_test info.

(** What a commit of [new_content] to [path] leaves behind: the backup
    copy is taken in [w], the write happens in the world [w1] after it. *)
Definition committed (path : string) (new_content : text) (w w' : world)
  : Prop :=
  let backup_path := (path +:+ ".backup")%string in
  exists original w1,
    files w !! path = Some original
    /\ copy2 path backup_path w = Some w1
    /\ files w1 !! backup_path = Some original
    /\ files w1 !! path = Some original
    /\ w' = write_file path new_content w1
    /\ files w' !! backup_path = Some original
    /\ files w' !! path = Some new_content
    /\ ops w' = ops w ++ [OpCopy path backup_path; OpWrite path new_content].

End Props.

(** ** Sample inputs *)

Module Samples.

Definition lines (ls : list string) : text := join_nl (map txt ls).

(** A test whose body has an inner block. *)
Definition nested_file : text := lines
  [ "#[test]";
    "fn test_transaction_commit() -> Result<()> {";
    "    let db = Database::open(p)?;";
    "    if x { y(); }";
    "    z();";
    "    Ok(())";
    "}";
    "" ].

(** The same test, cut off before its closing brace. *)
Definition unterminated_file : text := lines
  [ "#[test]";
    "fn test_cut() -> Result<()> {";
    "    let db = Database::open(p)?;";
    "    if x { y(); }";
    "    z();";
    "" ].

(** A test that already calls the harness. *)
Definition converted_file : text :=
  join_nl
    [ txt "#[test]";
      txt "fn test_marker() -> Result<()> {";
      txt "    run_with_both_backends(" ++ dq :: txt "test_marker" ++ dq ::
        txt ", |db_path| {";
      txt "        let db = Database::open(db_path)?;";
      txt "        Ok(())";
      txt "    })";
      txt "}";
      [] ].

(** A body with a closing brace inside a string literal. *)
Definition literal_body : text :=
  txt "{ let s = " ++ dq :: txt "}" ++ dq :: txt "; done(); }".

(** Scenario A: handle construction, one set, one get, a commit. *)
Definition scenario_a_file : text := lines
  [ "#[test]";
    "fn test_transaction_commit() -> Result<()> {";
    "    let mut engine = StorageEngine::new(path)?;";
    "    tx.set(key, value)?;";
    "    let v = tx.get(key)?;";
    "    tx.commit()?;";
    "}";
    "" ].

(** A test without database calls. *)
Definition simple_file : text := lines
  [ "#[test]";
    "fn test_parse() -> Result<()> {";
    "    let stmt = parse(input)?;";
    "    Ok(())";
    "}";
    "" ].

(** The harness call the scripts write for a test named [name]. *)
Definition harness_call (name : string) : text :=
  txt "    run_with_both_backends(" ++ dq :: txt name ++ dq ::
    txt ", |db_path| {".

(** What [Platform.transaction_tests_content] makes of [nested_file]. *)
Definition nested_file_platform_output : text :=
  join_nl
    [ txt "#[test]";
      txt "fn test_transaction_commit() -> Result<()> {";
      harness_call "test_transaction_commit";
      txt "";
      txt "    let db = Database::open(p)?;";
      txt "    if x { y(); ";
      txt "        Ok(())";
      txt "    })";
      txt "}";
      txt "    z();";
      txt "    Ok(())";
      txt "}";
      txt "" ].

(** What [Wasm.refactor_content] makes of [nested_file]. *)
Definition nested_file_wasm_output : text :=
  join_nl
    [ txt "use test_helpers::run_with_both_backends;";
      txt "";
      txt "#[test]";
      txt "fn test_transaction_commit() -> Result<()> {";
      harness_call "test_transaction_commit";
      txt "    let db = Database::open(p)?;";
      txt "    if x { y(); ";
      txt "        Ok(())";
      txt "    })";
      txt "";
      txt "" ].

(** What [Wasm.refactor_content] makes of [unterminated_file]. *)
Definition unterminated_file_output : text :=
  join_nl
    [ txt "use test_helpers::run_with_both_backends;";
      txt "";
      txt "#[test]";
      txt "fn test_cut() -> Result<()> {";
      harness_call "test_cut";
      txt "    let db = Database::open(p)?;";
      txt "    if x { y(); ";
      txt "        Ok(())";
      txt "    })";
      txt "{";
      txt "    let db = Database::open(p)?;";
      txt "    if x { y(); }";
      txt "    z();";
      txt "" ].

Definition one_file (path : string) (content : text) : world :=
  World {[ path := content ]} [].

(** The world a run of [Wasm.refactor_test_file] leaves behind. *)
Definition after_run (path : string) (w : world) : world :=
  match Wasm.refactor_test_file path w with
  | Some (_, w') => w'
  | None => w
  end.

(** A test with a closing brace inside a string literal. *)
Definition literal_file : text :=
  join_nl
    [ txt "#[test]";
      txt "fn test_literal() -> Result<()> {";
      txt "    let db = Database::open(p)?;";
      txt "    db.execute(" ++ dq :: txt "INSERT INTO t VALUES ('}')" ++ dq ::
        txt ")?;";
      txt "    done();";
      txt "    Ok(())";
      txt "}";
      [] ].

(** What [Wasm.refactor_content] makes of [literal_file]. *)
Definition literal_file_output : text :=
  join_nl
    [ txt "use test_helpers::run_with_both_backends;";
      txt "";
      txt "#[test]";
      txt "fn test_literal() -> Result<()> {";
      harness_call "test_literal";
      txt "    let db = Database::open(p)?;";
      txt "    db.execute(" ++ dq :: txt "INSERT INTO t VALUES ('";
      txt "        Ok(())";
      txt "    })";
      txt "')" ++ dq :: txt ")?;";
      txt "    done();";
      txt "    Ok(())";
      txt "}";
      [] ].

(** A test that already calls the harness, after a helper closure. *)
Definition late_harness_file : text :=
  join_nl
    [ txt "#[test]";
      txt "fn test_marker() -> Result<()> {";
      txt "    let setup = |db: &mut Database| { db.execute(" ++ dq ::
        txt "CREATE TABLE t (id INTEGER)" ++ dq :: txt ") };";
      txt "    run_with_both_backends(" ++ dq :: txt "test_marker" ++ dq ::
        txt ", |db_path| {";
      txt "        let mut db = Database::open(db_path)?;";
      txt "        setup(&mut db)?;";
      txt "        Ok(())";
      txt "    })";
      txt "}";
      [] ].

(** What [Wasm.refactor_content] makes of [late_harness_file]. *)
Definition late_harness_file_output : text :=
  join_nl
    [ txt "use test_helpers::run_with_both_backends;";
      txt "";
      txt "#[test]";
      txt "fn test_marker() -> Result<()> {";
      harness_call "test_marker";
      txt "    let setup = |db: &mut Database| { db.execute(" ++ dq ::
        txt "CREATE TABLE t (id INTEGER)" ++ dq :: txt ") ";
      txt "        Ok(())";
      txt "    })";
      txt "";
      [] ].

(** A file that builds a low-level handle and also calls the harness. *)
Definition both_signals_file : text := lines
  [ "#[test]";
    "fn test_both() -> Result<()> {";
    "    let engine = StorageEngine::new(path)?;";
    "    run_with_both_backends(name, body)";
    "}";
    "" ].

(** A file that removes a file by hand and has no database call of the
    high level. *)
Definition file_ops_file : text := lines
  [ "#[test]";
    "fn test_cleanup() -> Result<()> {";
    "    fs::remove_file(path)?;";
    "    Ok(())";
    "}";
    "" ].

(** A test with low-level set and delete calls. *)
Definition low_level_file : text := lines
  [ "#[test]";
    "fn test_transaction_commit() -> Result<()> {";
    "    let mut tx = engine.begin_transaction();";
    "    tx.set(key, value)?;";
    "    engine.delete(other)?;";
    "    tx.commit()?;";
    "    Ok(())";
    "}";
    "" ].


End Samples.

(** ** identify_platform_specific_tests.py: the detailed analysis *)

Module Analysis.

Inductive complexity := Low | Medium | High.

(** One entry of the result of [analyze_platform_specific_files]. *)
Record analysis := MkAnalysis {
  a_file : string;
  a_storage_engine_ops : nat;
  a_file_ops : nat;
  a_test_functions : nat;
  a_complexity : complexity
}.

(** [len(re.findall(l1|l2|..., s))] for literals [l1], [l2], ...: at each
    offset the alternatives are tried from the left, and the search goes on
    after a match. *)
Definition first_alt (lits : list text) (s : text) : option text :=
  List.find (fun l => startswith s l) lits.

Fixpoint count_alt_go (lits : list text) (s : text) (skip : nat) : nat :=
  match s with
  | [] => 0
  | _ :: s' =>
      match skip with
      | S k => count_alt_go lits s' k
      | O =>
          match first_alt lits s with
          | Some l => S (count_alt_go lits s' (length l - 1))
          | None => count_alt_go lits s' 0
          end
      end
  end.

Definition count_alt (lits : list text) (s : text) : nat :=
  count_alt_go lits s 0.

(** [StorageEngine::new] *)
Definition storage_engine_pattern : regex := Lit (txt "StorageEngine::new").

(** [fs::remove_file|tempfile::|PathBuf::from] *)
Definition file_ops_literals : list text :=
  [txt "fs::remove_file"; txt "tempfile::"; txt "PathBuf::from"].

(** [#\[test\]\s*\nfn\s+\w+] *)
Definition test_header_pattern : regex :=
  seq [ Lit (txt "#[test]"); Star space; Lit [nl]; Lit (txt "fn"); Plus space;
        Plus word ].

(** Lines 59-63. *)
Definition estimate (storage_engine_ops file_ops : nat) : complexity :=
  if (10 <? storage_engine_ops) || (10 <? file_ops) then High
  else if (5 <? storage_engine_ops) || (5 <? file_ops) then Medium
  else Low.

(** The body of the loop of lines 49-71, from the file's content. *)
Definition analyze_content (file_path : string) (content : text) : analysis :=
  let storage_engine_ops := length (finditer storage_engine_pattern content) in
  let file_ops := count_alt file_ops_literals content in
  let test_functions := length (finditer test_header_pattern content) in
  MkAnalysis file_path storage_engine_ops file_ops test_functions
    (estimate storage_engine_ops file_ops).

(** [analyze_platform_specific_files(files)]; a missing file raises. *)
Fixpoint analyze_loop (fs : gmap string text) (files_ : list string)
  (results : list analysis) : option (list analysis) :=
  match files_ with
  | [] => Some results
  | file_path :: rest =>
      match fs !! file_path with
      | Some content =>
          analyze_loop fs rest (results ++ [analyze_content file_path content])
      | None => None
      end
  end.

Definition analyze_platform_specific_files (fs : gmap string text)
  (files_ : list string) : option (list analysis) :=
  analyze_loop fs files_ [].

End Analysis.

(** ** The [main] functions of the two refactoring scripts *)

Module Main.

Definition slash : ascii := ascii_of_nat 47.

Fixpoint has_slash (p : string) : bool :=
  match p with
  | EmptyString => false
  | String c p' => chr_eqb c slash || has_slash p'
  end.

(** [os.path.basename(p)]: what follows the last slash. *)
Fixpoint basename (p : string) : string :=
  match p with
  | EmptyString => EmptyString
  | String c p' =>
      if has_slash p' then basename p'
      else if chr_eqb c slash then p'
      else p
  end.

(** refactor_tests_for_wasm.py, line 219: the files of the glob that are
    not platform-specific. *)
Definition wasm_test_files (glob_result : list string) : list string :=
  List.filter
    (fun f => negb (Wasm.is_platform_specific_file (txt (basename f))))
    glob_result.

(** Lines 227-230: the loop over the files, counting those refactored. *)
Fixpoint wasm_loop (test_files : list string) (total_refactored : nat)
  (w : world) : option (nat * world) :=
  match test_files with
  | [] => Some (total_refactored, w)
  | test_file :: rest =>
      match Wasm.refactor_test_file test_file w with
      | Some (true, w') => wasm_loop rest (total_refactored + 1) w'
      | Some (false, w') => wasm_loop rest total_refactored w'
      | None => None
      end
  end.

(** [main()] of refactor_tests_for_wasm.py, from the result of the glob:
    the count it prints and the world it leaves. *)
Definition wasm_main (glob_result : list string) (w : world)
  : option (nat * world) :=
  wasm_loop (wasm_test_files glob_result) 0 w.

(** The text of [main()] of refactor_platform_specific_tests.py, lines
    272-282.  Running the script never comes as far as this function
    ([PlatformScript.run_script]). *)
Definition platform_main (w : world) : option (nat * world) :=
  let total_refactored := 0 in
  match Platform.refactor_transaction_tests w with
  | None => None
  | Some (r1, w1) =>
      let total_refactored :=
        if r1 then total_refactored + 1 else total_refactored in
      match Platform.refactor_commit_marker_tests w1 with
      | None => None
      | Some (r2, w2) =>
          let total_refactored :=
            if r2 then total_refactored + 1 else total_refactored in
          match Platform.refactor_read_only_transaction_test w2 with
          | None => None
          | Some (r3, w3) =>
              let total_refactored :=
                if r3 then total_refactored + 1 else total_refactored in
              Some (total_refactored, w3)
          end
      end
  end.

End Main.

(** ** refactor_platform_specific_tests.py as it is written *)

Module PlatformScript.

(** Python compiles a script as a whole before it runs any of it.  In an
    f-string a doubled brace stands for the brace itself; a single [{]
    opens a replacement field, whose expression runs to the [}] that
    closes it, and inside the expression round, square and curly brackets
    must nest.  The fields of this script are plain names, so conversions,
    format specifications and quotes inside a field are left out. *)

Definition lparen : ascii := ascii_of_nat 40.
Definition rparen : ascii := ascii_of_nat 41.
Definition lbrack : ascii := ascii_of_nat 91.
Definition rbrack : ascii := ascii_of_nat 93.

(** The errors of the compiler on an f-string:
    [f-string: single '}' is not allowed],
    [f-string: unmatched ')'],
    [f-string: closing parenthesis '}' does not match opening parenthesis '['],
    [f-string: empty expression not allowed],
    [f-string: expecting '}']. *)
Inductive fstring_error :=
| SingleClosingBrace
| Unmatched (closing : ascii)
| Mismatch (closing opening : ascii)
| EmptyExpression
| ExpectingClosingBrace.

Definition is_opening (c : ascii) : bool :=
  chr_eqb c lparen || chr_eqb c lbrack || chr_eqb c lbrace.

Definition is_closing (c : ascii) : bool :=
  chr_eqb c rparen || chr_eqb c rbrack || chr_eqb c rbrace.

Definition pairs (opening closing : ascii) : bool :=
  (chr_eqb opening lparen && chr_eqb closing rparen)
  || (chr_eqb opening lbrack && chr_eqb closing rbrack)
  || (chr_eqb opening lbrace && chr_eqb closing rbrace).

(** The replacement fields of an f-string, from the text between its
    quotes: [fstring_literal] reads the literal part, [fstring_expr] the
    expression of a field, with the stack of the brackets open in it. *)
Fixpoint fstring_literal (s : text) (fields : list text)
  : fstring_error + list text :=
  match s with
  | [] => inr fields
  | c :: s' =>
      if chr_eqb c lbrace then
        match s' with
        | c' :: s'' =>
            if chr_eqb c' lbrace then fstring_literal s'' fields
            else fstring_expr s' [] [] fields
        | [] => fstring_expr s' [] [] fields
        end
      else if chr_eqb c rbrace then
        match s' with
        | c' :: s'' =>
            if chr_eqb c' rbrace then fstring_literal s'' fields
            else inl SingleClosingBrace
        | [] => inl SingleClosingBrace
        end
      else fstring_literal s' fields
  end
with fstring_expr (s : text) (parenstack : list ascii) (expr : text)
  (fields : list text) : fstring_error + list text :=
  match s with
  | [] => inl ExpectingClosingBrace
  | c :: s' =>
      if is_opening c then
        fstring_expr s' (c :: parenstack) (expr ++ [c]) fields
      else if is_closing c then
        match parenstack with
        | [] =>
            if chr_eqb c rbrace then
              match expr with
              | [] => inl EmptyExpression
              | _ => fstring_literal s' (fields ++ [expr])
              end
            else inl (Unmatched c)
        | opening :: rest =>
            if pairs opening c then fstring_expr s' rest (expr ++ [c]) fields
            else inl (Mismatch c opening)
        end
      else fstring_expr s' parenstack (expr ++ [c]) fields
  end.

Definition fstring_fields (s : text) : fstring_error + list text :=
  fstring_literal s [].

(** Line 59, between the quotes of the [rf'...'] literal. *)
Definition line_59 : text :=
  txt "#\[test\]\s*\nfn\s+{test_name}\s*\([^)]*\)\s*->\s*Result<\(\)>\s*\{([^}]+)\}".

(** The template of lines 69-75 ([body] is [new_body]) and of lines
    198-204 and 247-253 ([body] is [test_body]). *)
Definition function_template (body : string) : text :=
  join_nl
    [ txt "#[test]";
      txt "fn {test_name}() -> Result<()> {{";
      txt "    run_with_both_backends(" ++ dq :: txt "{test_name}" ++ dq ::
        txt ", |db_path| {{";
      lbrace :: txt body ++ [rbrace];
      txt "        Ok(())";
      txt "    }})";
      txt "}}" ].

(** The f-strings of the script, each with the line it starts on. *)
Definition fstrings : list (nat * text) :=
  [ (59, line_59);
    (69, function_template "new_body");
    (82, txt "  Created backup: {backup_path}");
    (198, function_template "test_body");
    (211, txt "  Created backup: {backup_path}");
    (247, function_template "test_body");
    (260, txt "  Created backup: {backup_path}");
    (284, txt "\n=== Refactoring Complete ===");
    (285, txt "Refactored {total_refactored} files");
    (286, txt "Backup files created with .backup extension");
    (287, txt "\nNote: Some StorageEngine operations need manual conversion to SQL");
    (288, txt "Next steps:");
    (289, txt "1. Review the changes and complete SQL conversions");
    (290, txt "2. Run tests to ensure everything works");
    (291, txt "3. Regenerate WASM tests: python3 generate_wasm_tests.py");
    (292, txt "4. Run full test suite: ./run_all_tests.sh") ].

(** The first f-string the compiler rejects, with its line. *)
Fixpoint first_error (fs : list (nat * text)) : option (nat * fstring_error) :=
  match fs with
  | [] => None
  | (line, f) :: fs' =>
      match fstring_fields f with
      | inl e => Some (line, e)
      | inr _ => first_error fs'
      end
  end.

Definition syntax_error : option (nat * fstring_error) := first_error fstrings.

(** [python3 refactor_platform_specific_tests.py] in the world [w].  On
    the left, the [SyntaxError] of the compiler: nothing of the script has
    run, no file has been read or written.  On the right, what [main()]
    gives. *)
Definition run_script (w : world)
  : (nat * fstring_error) + option (nat * world) :=
  match syntax_error with
  | Some e => inl e
  | None => inr (Main.platform_main w)
  end.

End PlatformScript.

(** ** What a pattern matches *)

Module ReSem.

(** [matches r i w g]: the pattern [r] matches the text [w] found at
    offset [i], and [g] lists the spans of the groups of [r] inside it,
    the latest first. *)
Fixpoint matches (r : regex) (i : nat) (w : text) (g : spans) : Prop :=
  match r with
  | Lit l => w = l /\ g = []
  | Cls p => (exists c, w = [c] /\ p c = true) /\ g = []
  | Star p => Forall (fun c => p c = true) w /\ g = []
  | Plus p => (w <> [] /\ Forall (fun c => p c = true) w) /\ g = []
  | LazyStar p => Forall (fun c => p c = true) w /\ g = []
  | Opt r' => (w = [] /\ g = []) \/ matches r' i w g
  | Seq r1 r2 =>
      exists w1 w2 g1 g2,
        w = w1 ++ w2 /\ g = g2 ++ g1
        /\ matches r1 i w1 g1 /\ matches r2 (i + length w1) w2 g2
  | Group n r' =>
      exists g', g = (n, (i, i + length w)) :: g' /\ matches r' i w g'
  end.

End ReSem.

(** ** Further notions used to state properties *)

Module Notions.

Import Identify.

Definition category_eqb (a b : category) : bool :=
  match a, b with
  | platform_specific, platform_specific => true
  | backend_agnostic, backend_agnostic => true
  | mixed, mixed => true
  | _, _ => false
  end.

(** [sub] occurs in [s]. *)
Definition occurs (sub : string) (s : text) : Prop :=
  exists pre post, s = pre ++ txt sub ++ post.

(** A line of code: not made of white space only, and not a [//] comment
    once the white space in front of it is passed. *)
Definition is_code_line (line : text) : bool :=
  negb (forallb is_space line)
  && negb (startswith (lstrip line) (txt "//")).

(** The file [f] of [fs] is of category [c]. *)
Definition has_category (fs : gmap string text) (c : category) (f : string)
  : bool :=
  match fs !! f with
  | Some content => category_eqb (categorize content) c
  | None => false
  end.

(** Matches in text order that do not overlap. *)
Definition before (m1 m2 : rmatch) : Prop :=
  m_start m1 < m_start m2 /\ m_end m1 <= m_start m2.

(** A path that ends in [.backup]. *)
Fixpoint ends_in_backup (p : string) : bool :=
  String.eqb p ".backup" ||
  match p with
  | EmptyString => false
  | String _ p' => ends_in_backup p'
  end.

(** Matches in text order: each starts at or after [lo], ends no earlier
    than it starts, and the next one starts after it, at or after its
    end. *)
Fixpoint ordered_from (lo : nat) (ms : list rmatch) : Prop :=
  match ms with
  | [] => True
  | m :: ms' =>
      lo <= m_start m /\ m_start m <= m_end m
      /\ ordered_from (Nat.max (S (m_start m)) (m_end m)) ms'
  end.

(** The pattern that locates test functions ends with the opening brace,
    a group of characters other than the closing brace, and the closing
    brace; [wasm_header] is what comes before. *)
Definition body_tail (n : nat) : list regex :=
  [ Lit (txt "{"); Group n (Plus (non "}")); Lit (txt "}") ].

Definition wasm_header : list regex :=
  [ Lit (txt "#[test]"); Star space; Lit [nl]; Lit (txt "fn"); Plus space;
    Group 1 (Plus word); Star space;
    Lit (txt "("); Star (non ")"); Lit (txt ")"); Star space;
    Lit (txt "->"); Star space;
    Group 2 (seq [ Lit (txt "Result<()");
                   Opt (seq [Lit (txt ","); Star space;
                             Lit (txt "tegdb::Error")]);
                   Lit (txt ">") ]);
    Star space ].

(** The body group [n] of the match [m] is the text between an opening
    brace and the closing brace that ends the match; it is not empty and
    has no closing brace in it. *)
Definition body_between (content : text) (m : rmatch) (n : nat) : Prop :=
  exists head body,
    group0 content m = head ++ lbrace :: body ++ [rbrace]
    /\ group content m n = body
    /\ body <> []
    /\ rbrace ∉ body.

End Notions.

(** ** Facts about texts *)

Module TextFacts.

Lemma chr_eqb_true a b : chr_eqb a b = true <-> a = b.
Proof. apply Ascii.eqb_eq. Qed.

Lemma chr_eqb_false a b : chr_eqb a b = false <-> a <> b.
Proof. apply Ascii.eqb_neq. Qed.

Lemma chr_eqb_same a : chr_eqb a a = true.
Proof. apply Ascii.eqb_refl. Qed.

Lemma strip_prefix_app p r : strip_prefix p (p ++ r) = Some r.
Proof.
  induction p as [|a p IH]; simpl; [reflexivity|].
  now rewrite chr_eqb_same.
Qed.

Lemma strip_prefix_inv p : forall s r, strip_prefix p s = Some r -> s = p ++ r.
Proof.
  induction p as [|a p IH]; simpl; intros s r H.
  - now inversion H.
  - destruct s as [|b s]; [discriminate|].
    destruct (chr_eqb a b) eqn:E; [|discriminate].
    apply chr_eqb_true in E. subst b. f_equal. now apply IH.
Qed.

Lemma startswith_true s p : startswith s p = true <-> exists r, s = p ++ r.
Proof.
  unfold startswith. split.
  - destruct (strip_prefix p s) as [r|] eqn:E; [|discriminate].
    intros _. exists r. now apply strip_prefix_inv.
  - intros [r ->]. now rewrite strip_prefix_app.
Qed.

(** [sub in s] holds exactly when [sub] occurs in [s]. *)
Lemma contains_true sub s :
  contains sub s = true <-> exists pre post, s = pre ++ sub ++ post.
Proof.
  induction s as [|c s IH]; simpl.
  - rewrite orb_false_r, startswith_true. split.
    + intros [r H]. exists [], r. exact H.
    + intros (pre & post & H). destruct pre; simpl in H.
      * now exists post.
      * discriminate.
  - rewrite orb_true_iff, startswith_true, IH. split.
    + intros [[r H] | (pre & post & H)].
      * exists [], r. exact H.
      * exists (c :: pre), post. simpl. now rewrite H.
    + intros (pre & post & H). destruct pre as [|a pre]; simpl in H.
      * left. now exists post.
      * right. inversion H. now exists pre, post.
Qed.

Lemma contains_elem sub s c :
  contains sub s = true -> c ∈ sub -> c ∈ s.
Proof.
  intros H Hc. apply contains_true in H as (pre & post & ->).
  rewrite !elem_of_app. auto.
Qed.

Lemma lstrip_blank s : lstrip s = [] -> Forall (fun c => is_space c = true) s.
Proof.
  induction s as [|c s IH]; simpl; intros H; [constructor|].
  destruct (is_space c) eqn:E; [|discriminate].
  constructor; auto.
Qed.

Lemma rstrip_blank s : rstrip s = [] -> Forall (fun c => is_space c = true) s.
Proof.
  induction s as [|c s IH]; simpl; intros H; [constructor|].
  destruct (rstrip s) eqn:E; [|discriminate].
  destruct (is_space c) eqn:Ec; [|discriminate].
  constructor; auto.
Qed.

Lemma lstrip_suffix s : exists pre,
  s = pre ++ lstrip s /\ Forall (fun c => is_space c = true) pre.
Proof.
  induction s as [|c s (pre & Hs & Hpre)]; simpl.
  - exists []. split; [reflexivity|constructor].
  - destruct (is_space c) eqn:E.
    + exists (c :: pre). split; [simpl; now rewrite <- Hs|now constructor].
    + exists []. split; [reflexivity|constructor].
Qed.

(** A line that strips to nothing is made of white space. *)
Lemma strip_blank s : strip s = [] -> Forall (fun c => is_space c = true) s.
Proof.
  unfold strip. intros H. apply rstrip_blank in H.
  destruct (lstrip_suffix s) as (pre & Hs & Hpre).
  rewrite Hs. apply Forall_app. split; assumption.
Qed.

(** A text with a character that is not white space occurs in no blank
    line. *)
Lemma blank_contains sub s c :
  strip s = [] -> c ∈ sub -> is_space c = false -> contains sub s = false.
Proof.
  intros Hs Hc Hsp. destruct (contains sub s) eqn:E; [|reflexivity].
  pose proof (contains_elem _ _ _ E Hc) as Hin.
  apply strip_blank in Hs. rewrite Forall_forall in Hs.
  specialize (Hs c Hin). congruence.
Qed.

Lemma rstrip_prefix s : exists post, s = rstrip s ++ post.
Proof.
  induction s as [|c s (post & Hs)]; simpl.
  - now exists [].
  - destruct (rstrip s) as [|r rs] eqn:E.
    + destruct (is_space c).
      * now exists (c :: s).
      * exists s. reflexivity.
    + exists post. simpl. now rewrite Hs at 1.
Qed.

Lemma contains_trans a b c :
  contains a b = true -> contains b c = true -> contains a c = true.
Proof.
  rewrite !contains_true. intros (p1 & q1 & ->) (p2 & q2 & ->).
  exists (p2 ++ p1), (q1 ++ q2). now rewrite <- !app_assoc.
Qed.

(** What occurs in the stripped line occurs in the line. *)
Lemma contains_strip sub s :
  contains sub (strip s) = true -> contains sub s = true.
Proof.
  intros H. apply (contains_trans _ _ _ H). apply contains_true.
  destruct (lstrip_suffix s) as (pre & Hs & _).
  destruct (rstrip_prefix (lstrip s)) as (post & Hr).
  exists pre, post. unfold strip. now rewrite <- Hr.
Qed.

End TextFacts.

Import TextFacts.

(** ** The classifier *)

Module Classifier.

Import Identify.

Import Notions.

Lemma occurs_contains sub s : occurs sub s <-> contains (txt sub) s = true.
Proof. unfold occurs. symmetry. apply contains_true. Qed.

(** Each of the four signals is a substring search. *)
Lemma has_storage_engine_spec content :
  has_storage_engine content = true <->
  exists pre post, content = pre ++ txt "StorageEngine::new" ++ post.
Proof. apply contains_true. Qed.

Lemma has_database_api_spec content :
  has_database_api content = true <->
  exists pre post, content = pre ++ txt "Database::open" ++ post.
Proof. apply contains_true. Qed.

Lemma has_file_ops_spec content :
  has_file_ops content = true <->
  occurs "fs::remove_file" content \/ occurs "tempfile::" content
  \/ occurs "PathBuf::from" content.
Proof.
  unfold has_file_ops, any_in. simpl existsb.
  rewrite !orb_true_iff, !occurs_contains. intuition discriminate.
Qed.

(** The if/else of lines 32-41 as a table over the two disjunctions. *)
Lemma categorize_table content :
  categorize content =
    match has_storage_engine content || has_file_ops content,
          has_run_with_both_backends content || has_database_api content with
    | true, true => mixed
    | true, false => platform_specific
    | false, _ => backend_agnostic
    end.
Proof.
  unfold categorize.
  destruct (has_storage_engine content || has_file_ops content),
    (has_run_with_both_backends content || has_database_api content);
    reflexivity.
Qed.

(** C1. For every text, the four signals of the classifier are what their
    names say: the low-level handle signal holds exactly when
    [StorageEngine::new] occurs in the text, the direct file-system signal
    exactly when [fs::remove_file], [tempfile::] or [PathBuf::from] occurs,
    the cross-backend signal exactly when [run_with_both_backends] occurs,
    and the high-level open signal exactly when [Database::open] occurs.
    The category follows the decision table over these occurrences:
    (handle or file system) with (harness or open) gives [mixed], (handle
    or file system) without (harness or open) gives [platform_specific],
    anything else gives [backend_agnostic]; in particular a text in which
    none of the six substrings occurs is [backend_agnostic]. *)
Theorem categorize_by_signals (content : text) :
  let handle := occurs "StorageEngine::new" content in
  let direct_fs :=
    occurs "fs::remove_file" content \/ occurs "tempfile::" content
    \/ occurs "PathBuf::from" content in
  let harness := occurs "run_with_both_backends" content in
  let high_open := occurs "Database::open" content in
  ((has_storage_engine content = true <-> handle)
   /\ (has_file_ops content = true <-> direct_fs)
   /\ (has_run_with_both_backends content = true <-> harness)
   /\ (has_database_api content = true <-> high_open))
  /\ (handle \/ direct_fs -> harness \/ high_open ->
      categorize content = mixed)
  /\ (handle \/ direct_fs -> ~ (harness \/ high_open) ->
      categorize content = platform_specific)
  /\ (~ (handle \/ direct_fs) -> categorize content = backend_agnostic)
  /\ (~ handle -> ~ direct_fs -> ~ harness -> ~ high_open ->
      categorize content = backend_agnostic).
Proof.
  intros handle direct_fs harness high_open.
  assert (Hse : has_storage_engine content = true <-> handle)
    by (symmetry; apply occurs_contains).
  assert (Hfo : has_file_ops content = true <-> direct_fs)
    by apply has_file_ops_spec.
  assert (Hrw : has_run_with_both_backends content = true <-> harness)
    by (symmetry; apply occurs_contains).
  assert (Hdb : has_database_api content = true <-> high_open)
    by (symmetry; apply occurs_contains).
  assert (Hlow : has_storage_engine content || has_file_ops content = true
                 <-> handle \/ direct_fs)
    by (rewrite orb_true_iff, Hse, Hfo; reflexivity).
  assert (Hhigh : has_run_with_both_backends content
                  || has_database_api content = true
                  <-> harness \/ high_open)
    by (rewrite orb_true_iff, Hrw, Hdb; reflexivity).
  split; [auto|].
  rewrite categorize_table.
  destruct (has_storage_engine content || has_file_ops content),
    (has_run_with_both_backends content || has_database_api content);
    intuition discriminate.
Qed.

(** The table at work: a file with a handle construction and a harness
    call, a file that removes a file by hand, and a parsing test with none
    of the signals. *)
Lemma categorize_by_signals_witness :
  categorize Samples.both_signals_file = mixed
  /\ categorize Samples.file_ops_file = platform_specific
  /\ categorize Samples.simple_file = backend_agnostic.
Proof.
  split; [|split].
  - apply (proj1 (proj2 (categorize_by_signals Samples.both_signals_file)));
      left; apply occurs_contains; vm_compute; reflexivity.
  - apply (proj1 (proj2 (proj2
             (categorize_by_signals Samples.file_ops_file)))).
    + right; left. apply occurs_contains. vm_compute. reflexivity.
    + intros [H | H]; apply occurs_contains in H; vm_compute in H;
        discriminate.
  - apply (proj2 (proj2 (proj2 (proj2
             (categorize_by_signals Samples.simple_file)))));
      intros H; repeat destruct H as [H | H];
      apply occurs_contains in H; vm_compute in H; discriminate.
Defined.

(** [scan_test_files] puts a file in the list of its category. *)
Lemma file_into_category b test_file content :
  let b' := file_into b test_file content in
  match categorize content with
  | platform_specific => b_platform_specific b' = b_platform_specific b ++ [test_file]
  | backend_agnostic => b_backend_agnostic b' = b_backend_agnostic b ++ [test_file]
  | mixed => b_mixed b' = b_mixed b ++ [test_file]
  end.
Proof. unfold file_into. destruct (categorize content); reflexivity. Qed.

End Classifier.

(** ** The function locator *)

Module Locator.

Import Props.

Lemma lbrace_delta : brace_delta lbrace = 1%Z.
Proof. reflexivity. Qed.

Lemma rbrace_delta : brace_delta rbrace = (-1)%Z.
Proof. reflexivity. Qed.

Lemma other_delta c :
  chr_eqb c lbrace = false -> chr_eqb c rbrace = false -> brace_delta c = 0%Z.
Proof. unfold brace_delta. now intros -> ->. Qed.

(** The loop of lines 160-167 against the raw depth: it stops at the first
    closing brace where the count started at [n] comes back to zero, and
    falls through to its default when there is none. *)
Lemma scan_braces_raw s : forall i n d,
  (exists k,
      s !! k = Some rbrace
      /\ (n + depth (take (S k) s) = 0)%Z
      /\ (forall j, j < k -> s !! j = Some rbrace ->
                    (n + depth (take (S j) s))%Z <> 0%Z)
      /\ Wasm.scan_braces s i n d = i + k + 1)
  \/ ((forall j, s !! j = Some rbrace -> (n + depth (take (S j) s))%Z <> 0%Z)
      /\ Wasm.scan_braces s i n d = d).
Proof.
  induction s as [|c s IH]; intros i n d.
  - right. split; [|reflexivity]. intros j H. discriminate.
  - simpl Wasm.scan_braces.
    destruct (chr_eqb c lbrace) eqn:El.
    + apply chr_eqb_true in El. subst c.
      destruct (IH (S i) (n + 1)%Z d) as [(k & Hk & Hz & Hmin & Hr) | (Hno & Hr)].
      * left. exists (S k). repeat split.
        -- exact Hk.
        -- simpl take. simpl depth. rewrite lbrace_delta. lia.
        -- intros [|j] Hj Hl; [discriminate|].
           simpl take. simpl depth. rewrite lbrace_delta.
           specialize (Hmin j (proj2 (Nat.succ_lt_mono j k) Hj) Hl). lia.
        -- rewrite Hr. lia.
      * right. split; [|exact Hr].
        intros [|j] Hl; [discriminate|].
        simpl take. simpl depth. rewrite lbrace_delta.
        specialize (Hno j Hl). lia.
    + destruct (chr_eqb c rbrace) eqn:Er.
      * apply chr_eqb_true in Er. subst c.
        destruct (n - 1 =? 0)%Z eqn:Ez.
        -- apply Z.eqb_eq in Ez. left. exists 0. repeat split.
           ++ simpl. rewrite rbrace_delta. lia.
           ++ intros j Hj. lia.
           ++ lia.
        -- apply Z.eqb_neq in Ez.
           destruct (IH (S i) (n - 1)%Z d)
             as [(k & Hk & Hz & Hmin & Hr) | (Hno & Hr)].
           ++ left. exists (S k). repeat split.
              ** exact Hk.
              ** simpl take. simpl depth. rewrite rbrace_delta. lia.
              ** intros [|j] Hj Hl; simpl take; simpl depth;
                   rewrite rbrace_delta.
                 --- simpl. lia.
                 --- specialize (Hmin j (proj2 (Nat.succ_lt_mono j k) Hj) Hl).
                     lia.
              ** rewrite Hr. lia.
           ++ right. split; [|exact Hr].
              intros [|j] Hl; simpl take; simpl depth; rewrite rbrace_delta.
              ** simpl. lia.
              ** specialize (Hno j Hl). lia.
      * pose proof (other_delta c El Er) as Hd.
        destruct (IH (S i) n d) as [(k & Hk & Hz & Hmin & Hr) | (Hno & Hr)].
        -- left. exists (S k). repeat split.
           ++ exact Hk.
           ++ simpl take. simpl depth. rewrite Hd. lia.
           ++ intros [|j] Hj Hl.
              ** simpl in Hl. inversion Hl. subst c. discriminate.
              ** simpl take. simpl depth. rewrite Hd.
                 specialize (Hmin j (proj2 (Nat.succ_lt_mono j k) Hj) Hl). lia.
           ++ rewrite Hr. lia.
        -- right. split; [|exact Hr].
           intros [|j] Hl.
           ++ simpl in Hl. inversion Hl. subst c. discriminate.
           ++ simpl take. simpl depth. rewrite Hd.
              specialize (Hno j Hl). lia.
Qed.

(** The scan of [find_brace_end] against the raw depth of the text from
    [brace_start] on. *)
Lemma brace_end_raw_depth (content : text) (brace_start : nat) :
  let body := drop brace_start content in
  (exists k,
      body !! k = Some rbrace
      /\ depth (take (S k) body) = 0%Z
      /\ (forall j, j < k -> body !! j = Some rbrace ->
                    depth (take (S j) body) <> 0%Z)
      /\ Wasm.find_brace_end content brace_start = brace_start + k + 1)
  \/ ((forall j, body !! j = Some rbrace -> depth (take (S j) body) <> 0%Z)
      /\ Wasm.find_brace_end content brace_start = brace_start).
Proof.
  intros body. unfold Wasm.find_brace_end. fold body.
  destruct (scan_braces_raw body brace_start 0%Z brace_start)
    as [(k & Hk & Hz & Hmin & Hr) | (Hno & Hr)].
  - left. exists k. repeat split; auto.
  - right. split; auto.
Qed.

(** C3 on the code.  The loop of lines 160-167 stands under the comment
    [# Find the matching closing brace], and it counts the closing brace of
    a string literal like any other.  In [literal_body] the scan ends at
    offset 12, inside the literal, and not at offset 24 where the scan of
    the text with its literals blanked ends.  In [literal_file] the test's
    body opens at offset 40 and its matching brace closes at offset 146,
    but the scan ends at offset 115, just after the brace inside the SQL
    string: the new body is spliced in up to there, and the rest of the
    string literal and of the old body is left behind it. *)
Theorem quoted_brace_ends_scan :
  Wasm.find_brace_end Samples.literal_body 0 = 12
  /\ Wasm.find_brace_end (erase_literals Samples.literal_body) 0 = 24
  /\ find_from (txt "{") Samples.literal_file 0 = Some 40
  /\ Samples.literal_file !! 114 = Some rbrace
  /\ erase_literals Samples.literal_file !! 114 = Some blank
  /\ Wasm.find_brace_end Samples.literal_file 40 = 115
  /\ Wasm.find_brace_end (erase_literals Samples.literal_file) 40 = 146
  /\ Wasm.refactor_content Samples.literal_file
     = (Samples.literal_file_output, true).
Proof. repeat split; vm_compute; reflexivity. Qed.

(** A function whose braces do not come back to depth zero leaves
    [brace_end] at [brace_start]. *)
Lemma unterminated_scan_falls_through content brace_start :
  (forall j, drop brace_start content !! j = Some rbrace ->
             depth (take (S j) (drop brace_start content)) <> 0%Z) ->
  Wasm.find_brace_end content brace_start = brace_start.
Proof.
  intros Hno.
  unfold Wasm.find_brace_end.
  destruct (scan_braces_raw (drop brace_start content) brace_start 0%Z
              brace_start) as [(k & Hk & Hz & _) | (_ & Hr)]; [|exact Hr].
  exfalso. apply (Hno k Hk). lia.
Qed.

(** C2 on the code: the locating patterns end the body at the first
    closing brace.  In [nested_file] the body opens at offset 51 and its
    matching brace closes at offset 125, but the match of
    [refactor_transaction_tests] ends at offset 103, after the brace of the
    inner block, so the rewritten function is followed by the rest of the
    old body.  [refactor_test_file] replaces the span up to the matching
    brace, yet takes the body text from the same truncated group. *)
Theorem inner_brace_truncates_body :
  search (Platform.named_pattern (txt "test_transaction_commit"))
    Samples.nested_file = Some (Match 0 103 [(1, (52, 102))])
  /\ find_from (txt "{") Samples.nested_file 0 = Some 51
  /\ Wasm.find_brace_end Samples.nested_file 51 = 125
  /\ Platform.transaction_tests_content Samples.nested_file
     = Samples.nested_file_platform_output
  /\ map (fun m => group Samples.nested_file m 3)
       (finditer Wasm.test_pattern Samples.nested_file)
     = [ join_nl [ txt ""; txt "    let db = Database::open(p)?;";
                   txt "    if x { y(); " ] ]
  /\ Wasm.refactor_content Samples.nested_file
     = (Samples.nested_file_wasm_output, true).
Proof. repeat split; vm_compute; reflexivity. Qed.

(** C8 on the code: [unterminated_file] holds one test whose body, opened
    at offset 36, is still one brace deep at the end of the file.  The scan
    falls through with [brace_end = brace_start], nothing is reported, and
    the function is edited all the same: the new body is put after the
    opening brace, the old text stays, and the file is written. *)
Theorem unterminated_function_is_edited :
  let path := "tests/cut.rs"%string in
  finditer Wasm.test_pattern Samples.unterminated_file
  = [Match 0 88 [(3, (37, 87)); (2, (25, 35)); (1, (11, 19))]]
  /\ find_from (txt "{") Samples.unterminated_file 0 = Some 36
  /\ depth (drop 36 Samples.unterminated_file) = 1%Z
  /\ Wasm.find_brace_end Samples.unterminated_file 36 = 36
  /\ Wasm.refactor_content Samples.unterminated_file
     = (Samples.unterminated_file_output, true)
  /\ exists w',
       Wasm.refactor_test_file path
         (Samples.one_file path Samples.unterminated_file) = Some (true, w')
       /\ files w' !! path = Some Samples.unterminated_file_output
       /\ ops w' = [ OpCopy path (path +:+ ".backup");
                     OpWrite path Samples.unterminated_file_output ].
Proof.
  intros path. do 5 (split; [vm_compute; reflexivity|]).
  eexists. split; [vm_compute; reflexivity|].
  split; vm_compute; reflexivity.
Qed.

End Locator.

(** ** The rule engine *)

Module Rules.

Import Props Platform.

(** *** The guard of [refactor_tests_for_wasm.py] *)

(** A function that already calls the harness is left as it is, before
    anything is done to its lines. *)
Lemma wasm_guard content st m :
  Wasm.already_uses_rwb (Wasm.extract_test_function_info content m) = true ->
  Wasm.process_match content st m = st
  /\ Wasm.refactor_test_function (Wasm.extract_test_function_info content m)
     = None.
Proof.
  intros H. unfold Wasm.process_match, Wasm.refactor_test_function.
  destruct st as [new_content modified]. rewrite H.
  split; [|reflexivity].
  now destruct (Wasm.is_platform_specific_test _).
Qed.

(** C4 on the code.  The guard looks for the harness call in the body the
    pattern has captured, and that body stops at the first closing brace.
    In [converted_file] the call comes before any closing brace and the
    file is left as it is.  In [late_harness_file] the test calls the
    harness after a helper closure: the function's body (offsets 40 to
    272) holds the call, the captured body (offsets 40 to 121) does not,
    so the guard lets the function through; it is rewritten, the harness
    call it had is lost with the rest of its body, and the file is
    written. *)
Theorem guard_misses_late_harness_call :
  let path := "tests/marker.rs"%string in
  let m := Match 0 122 [(3, (40, 121)); (2, (28, 38)); (1, (11, 22))] in
  Wasm.refactor_content Samples.converted_file
  = (Samples.converted_file, false)
  /\ finditer Wasm.test_pattern Samples.late_harness_file = [m]
  /\ find_from (txt "{") Samples.late_harness_file 0 = Some 39
  /\ Wasm.find_brace_end Samples.late_harness_file 39 = 273
  /\ contains (txt "run_with_both_backends(")
       (slice Samples.late_harness_file 40 272) = true
  /\ Wasm.already_uses_rwb
       (Wasm.extract_test_function_info Samples.late_harness_file m) = false
  /\ skipped Samples.late_harness_file m = false
  /\ Wasm.refactor_content Samples.late_harness_file
     = (Samples.late_harness_file_output, true)
  /\ Samples.late_harness_file_output <> Samples.late_harness_file
  /\ exists w',
       Wasm.refactor_test_file path
         (Samples.one_file path Samples.late_harness_file) = Some (true, w')
       /\ files w' !! path = Some Samples.late_harness_file_output.
Proof.
  intros path m. do 8 (split; [vm_compute; reflexivity|]).
  split; [vm_compute; discriminate|].
  eexists. split; vm_compute; reflexivity.
Qed.

(** *** The script of [refactor_platform_specific_tests.py] *)

Import PlatformScript.

(** The f-string of line 59 opens a replacement field at the brace of
    [\{] and meets the closing brace of [[^}]] while the square bracket is
    open. *)
Lemma line_59_is_rejected :
  fstring_fields line_59 = inl (Mismatch rbrace lbrack).
Proof. vm_compute. reflexivity. Qed.

(** So the script does not compile, and running it does nothing. *)
Lemma run_script_raises w : run_script w = inl (59, Mismatch rbrace lbrack).
Proof. reflexivity. Qed.

(** As its text reads, [convert_storage_engine_to_database] leaves
    nothing for a line with an [engine.set(] call, no placeholder
    either. *)
Lemma engine_call_is_dropped :
  low_level_call (txt "    engine.set(key, value)?;") = true
  /\ convert_storage_engine_to_database (txt "    engine.set(key, value)?;")
       (txt "test_transaction_commit") = [].
Proof. split; vm_compute; reflexivity. Qed.

(** C5 on the code.  [low_level_file] has a line with a low-level set call
    and one with a low-level delete call.  Running the script on it stops
    at the [SyntaxError] of line 59 before any function is defined: no
    line is replaced by a placeholder, and the file stays as it is. *)
Theorem low_level_calls_get_no_placeholder :
  let path := "tests/transaction_tests.rs"%string in
  let w := Samples.one_file path Samples.low_level_file in
  txt "    tx.set(key, value)?;" ∈ split_nl Samples.low_level_file
  /\ low_level_call (txt "    tx.set(key, value)?;") = true
  /\ txt "    engine.delete(other)?;" ∈ split_nl Samples.low_level_file
  /\ low_level_call (txt "    engine.delete(other)?;") = true
  /\ syntax_error = Some (59, Mismatch rbrace lbrack)
  /\ run_script w = inl (59, Mismatch rbrace lbrack).
Proof.
  intros path w. repeat split; try (vm_compute; reflexivity);
    vm_compute; set_solver.
Qed.

(** C9 on the code.  The templates that wrap a function in the harness
    call are well formed, with the test's name and the new body as their
    fields, but the pattern of line 59, which is to locate the function,
    is not.  Running the script on [scenario_a_file] stops at the
    [SyntaxError] of that line: the function is not transformed, and its
    handle construction line stays in the file. *)
Theorem scenario_a_is_not_transformed :
  let path := "tests/transaction_tests.rs"%string in
  let w := Samples.one_file path Samples.scenario_a_file in
  fstring_fields (function_template "new_body")
  = inr [txt "test_name"; txt "test_name"; txt "new_body"]
  /\ fstring_fields line_59 = inl (Mismatch rbrace lbrack)
  /\ run_script w = inl (59, Mismatch rbrace lbrack)
  /\ files w !! path = Some Samples.scenario_a_file
  /\ contains (txt "StorageEngine::new") Samples.scenario_a_file = true.
Proof. intros path w. repeat split; vm_compute; reflexivity. Qed.

End Rules.

(** ** Backups and writes *)

Module Safety.

Import Props.



(** The block [backup_and_write], when it goes through: the copy is taken
    first, from the file as it was, and the write comes second. *)
Lemma backup_and_write_committed path content w w' :
  backup_and_write path (path +:+ ".backup") content w = Some w' ->
  committed path content w w'.
Proof.
  intros H. unfold backup_and_write in H.
  destruct (copy2 path (path +:+ ".backup") w) as [w1|] eqn:Hcopy;
    [|discriminate].
  injection H as <-. pose proof Hcopy as Hw1. unfold copy2 in Hw1.
  destruct (decide (path = (path +:+ ".backup")%string)) as [E|Hne];
    [discriminate|].
  destruct (files w !! path) as [original|] eqn:Hread; [|discriminate].
  injection Hw1 as <-.
  unfold committed. cbv zeta. exists original. eexists.
  split; [exact Hread|]. split; [exact Hcopy|]. simpl. repeat split.
  - apply lookup_insert_eq.
  - rewrite lookup_insert_ne by congruence. exact Hread.
  - rewrite lookup_insert_ne by exact Hne. apply lookup_insert_eq.
  - apply lookup_insert_eq.
  - now rewrite <- app_assoc.
Qed.


(** C6. Whenever one of the refactoring functions commits a file, the
    backup is copied from the file as it was before the commit, the write
    to the file comes after the copy, and in the end the backup holds
    exactly the old content. *)
Theorem backup_fidelity (path : string) (w w' : world) :
  Wasm.refactor_test_file path w = Some (true, w')
  \/ (path = "tests/transaction_tests.rs"%string
      /\ Platform.refactor_transaction_tests w = Some (true, w'))
  \/ (path = "tests/commit_marker_tests.rs"%string
      /\ Platform.refactor_commit_marker_tests w = Some (true, w'))
  \/ (path = "tests/read_only_transaction_test.rs"%string
      /\ Platform.refactor_read_only_transaction_test w = Some (true, w')) ->
  exists new_content, committed path new_content w w'.
Proof.
  intros [H | [[-> H] | [[-> H] | [-> H]]]].
  - unfold Wasm.refactor_test_file, read_file in H.
    destruct (files w !! path) as [content|]; [|discriminate].
    destruct (Wasm.refactor_content content) as [new_content modified].
    destruct modified; [|discriminate].
    destruct (backup_and_write _ _ _ w) as [w1|] eqn:E; [|discriminate].
    injection H as <-. exists new_content.
    now apply backup_and_write_committed.
  - unfold Platform.refactor_transaction_tests, read_file in H.
    destruct (files w !! _) as [content|]; [|discriminate].
    destruct (backup_and_write _ _ _ w) as [w1|] eqn:E; [|discriminate].
    injection H as <-. eexists.
    apply backup_and_write_committed. exact E.
  - unfold Platform.refactor_commit_marker_tests, read_file in H.
    destruct (files w !! _) as [content|]; [|discriminate].
    destruct (backup_and_write _ _ _ w) as [w1|] eqn:E; [|discriminate].
    injection H as <-. eexists.
    apply backup_and_write_committed. exact E.
  - unfold Platform.refactor_read_only_transaction_test, read_file in H.
    destruct (files w !! _) as [content|]; [|discriminate].
    destruct (backup_and_write _ _ _ w) as [w1|] eqn:E; [|discriminate].
    injection H as <-. eexists.
    apply backup_and_write_committed. exact E.
Qed.

Lemma backup_fidelity_witness :
  let w := Samples.one_file "tests/a.rs" Samples.nested_file in
  exists new_content,
    committed "tests/a.rs" new_content w (Samples.after_run "tests/a.rs" w).
Proof.
  intros w. apply (backup_fidelity "tests/a.rs" w).
  left. vm_compute. reflexivity.
Defined.




(** *** Files in which nothing is refactored *)

Lemma process_match_skipped content st m :
  skipped content m = true -> Wasm.process_match content st m = st.
Proof.
  unfold skipped, Wasm.process_match. destruct st as [new_content modified].
  destruct (Wasm.is_platform_specific_test _); [reflexivity|].
  destruct (Wasm.already_uses_rwb _); [reflexivity|].
  destruct (Wasm.is_simple_test _); [reflexivity|discriminate].
Qed.

Lemma process_all_skipped content ms : forall st,
  Forall (fun m => skipped content m = true) ms ->
  fold_left (Wasm.process_match content) ms st = st.
Proof.
  induction ms as [|m ms IH]; intros st H; [reflexivity|].
  inversion H as [|? ? Hm Hms]; subst. simpl.
  rewrite (process_match_skipped _ _ _ Hm). now apply IH.
Qed.

Lemma refactor_content_skipped content :
  forallb (skipped content) (finditer Wasm.test_pattern content) = true ->
  Wasm.refactor_content content = (content, false).
Proof.
  intros H. unfold Wasm.refactor_content, Wasm.process_matches.
  destruct (finditer Wasm.test_pattern content) as [|m ms] eqn:E;
    [reflexivity|].
  rewrite process_all_skipped; [reflexivity|].
  apply Forall_rev. apply Forall_forall. intros x Hx.
  rewrite forallb_forall in H. apply H. now apply list_elem_of_In.
Qed.

(** C10. When every test function located in a file is skipped (it is
    platform-specific by name, already calls the harness, or is simple),
    [refactor_test_file] returns [False] and leaves the world as it found
    it: the file keeps its content, no backup appears, nothing is
    written. *)
Theorem no_refactor_no_write (filepath : string) (w : world) (content : text) :
  read_file filepath w = Some content ->
  forallb (skipped content) (finditer Wasm.test_pattern content) = true ->
  Wasm.refactor_test_file filepath w = Some (false, w).
Proof.
  intros Hread Hskip. unfold Wasm.refactor_test_file.
  rewrite Hread, (refactor_content_skipped _ Hskip). reflexivity.
Qed.

Lemma no_refactor_no_write_witness :
  let w := World {[ "tests/parse.rs"%string := Samples.simple_file;
                    "tests/marker.rs"%string := Samples.converted_file ]} [] in
  Wasm.refactor_test_file "tests/parse.rs" w = Some (false, w)
  /\ Wasm.refactor_test_file "tests/marker.rs" w = Some (false, w).
Proof.
  intros w. split.
  - apply (no_refactor_no_write "tests/parse.rs" w Samples.simple_file);
      vm_compute; reflexivity.
  - apply (no_refactor_no_write "tests/marker.rs" w Samples.converted_file);
      vm_compute; reflexivity.
Defined.

End Safety.

(** ** More on the classifier and the analysis *)

Module IdentifyFacts.

Import Identify Analysis Notions.

Lemma has_category_present fs c f content :
  fs !! f = Some content ->
  has_category fs c f = category_eqb (categorize content) c.
Proof. unfold has_category. now intros ->. Qed.

Lemma scan_loop_lists fs : forall test_files b0 b,
  scan_loop fs test_files b0 = Some b ->
  b_platform_specific b
  = b_platform_specific b0
    ++ List.filter (has_category fs platform_specific) test_files
  /\ b_backend_agnostic b
     = b_backend_agnostic b0
       ++ List.filter (has_category fs backend_agnostic) test_files
  /\ b_mixed b
     = b_mixed b0 ++ List.filter (has_category fs mixed) test_files.
Proof.
  induction test_files as [|f rest IH]; intros b0 b H; simpl in H.
  - injection H as <-. simpl. now rewrite !app_nil_r.
  - destruct (fs !! f) as [content|] eqn:Hf; [|discriminate].
    apply IH in H as (H1 & H2 & H3). rewrite H1, H2, H3.
    cbn [List.filter]. rewrite !(has_category_present fs _ f content Hf).
    unfold file_into.
    destruct (categorize content); simpl;
      rewrite <- ?app_assoc; repeat split; reflexivity.
Qed.

(** X1. When [scan_test_files] returns, each of its three lists is the
    list of the files of that category, in the order of the glob, and the
    three lists together have as many entries as there are files. *)
Theorem scan_test_files_partition
  (fs : gmap string text) (test_files : list string) (b : buckets) :
  scan_test_files fs test_files = Some b ->
  b_platform_specific b
  = List.filter (has_category fs platform_specific) test_files
  /\ b_backend_agnostic b
     = List.filter (has_category fs backend_agnostic) test_files
  /\ b_mixed b = List.filter (has_category fs mixed) test_files
  /\ length (b_platform_specific b) + length (b_backend_agnostic b)
     + length (b_mixed b) = length test_files.
Proof.
  intros H. pose proof H as Hpresent.
  apply scan_loop_lists in H as (H1 & H2 & H3). simpl in H1, H2, H3.
  rewrite H1, H2, H3. repeat split.
  clear H1 H2 H3. unfold scan_test_files in Hpresent.
  revert Hpresent. generalize (Buckets [] [] []). revert b.
  induction test_files as [|f rest IH]; intros b b0 H; [reflexivity|].
  simpl in H. destruct (fs !! f) as [content|] eqn:Hf; [|discriminate].
  specialize (IH _ _ H). cbn [List.filter].
  rewrite !(has_category_present fs _ f content Hf).
  destruct (categorize content); simpl; lia.
Qed.

Lemma scan_test_files_partition_witness :
  let fs : gmap string text :=
    {[ "tests/a.rs"%string := Samples.nested_file;
       "tests/b.rs"%string := Samples.scenario_a_file;
       "tests/c.rs"%string := Samples.simple_file ]} in
  let files_ := ["tests/a.rs"; "tests/b.rs"; "tests/c.rs"]%string in
  scan_test_files fs files_
  = Some (Buckets ["tests/b.rs"%string]
            ["tests/a.rs"; "tests/c.rs"]%string [])
  /\ List.filter (has_category fs backend_agnostic) files_
     = ["tests/a.rs"; "tests/c.rs"]%string.
Proof.
  intros fs files_. split; [vm_compute; reflexivity|].
  symmetry.
  apply (scan_test_files_partition fs files_
           (Buckets ["tests/b.rs"%string]
              ["tests/a.rs"; "tests/c.rs"]%string [])).
  vm_compute. reflexivity.
Defined.

Lemma scan_loop_none fs : forall test_files b0,
  scan_loop fs test_files b0 = None
  <-> Exists (fun f => fs !! f = None) test_files.
Proof.
  induction test_files as [|f rest IH]; intros b0; simpl.
  - split; [discriminate|]. intros H. inversion H.
  - destruct (fs !! f) as [content|] eqn:Hf.
    + rewrite IH. split.
      * intros H. now apply Exists_cons_tl.
      * intros H. inversion H; subst; [congruence|assumption].
    + split; [|reflexivity]. intros _. now apply Exists_cons_hd.
Qed.

(** X2. [scan_test_files] raises exactly when one of the files of the
    glob cannot be read; otherwise it returns its three lists. *)
Theorem scan_test_files_raises
  (fs : gmap string text) (test_files : list string) :
  scan_test_files fs test_files = None
  <-> Exists (fun f => fs !! f = None) test_files.
Proof. apply scan_loop_none. Qed.

Lemma contains_app_l sub a b :
  contains sub a = true -> contains sub (a ++ b) = true.
Proof.
  rewrite !contains_true. intros (pre & post & ->).
  exists pre, (post ++ b). now rewrite <- !app_assoc.
Qed.

Lemma contains_app_r sub a b :
  contains sub b = true -> contains sub (a ++ b) = true.
Proof.
  rewrite !contains_true. intros (pre & post & ->).
  exists (a ++ pre), post. now rewrite <- !app_assoc.
Qed.

Lemma any_in_app_l ps a b : any_in ps a = true -> any_in ps (a ++ b) = true.
Proof.
  unfold any_in. rewrite !existsb_exists. intros (p & Hin & Hc).
  exists p. split; [exact Hin|]. now apply contains_app_l.
Qed.

Lemma any_in_app_r ps a b : any_in ps b = true -> any_in ps (a ++ b) = true.
Proof.
  unfold any_in. rewrite !existsb_exists. intros (p & Hin & Hc).
  exists p. split; [exact Hin|]. now apply contains_app_r.
Qed.

Lemma agnostic_iff content :
  categorize content = backend_agnostic
  <-> has_storage_engine content = false /\ has_file_ops content = false.
Proof.
  unfold categorize.
  destruct (has_storage_engine content), (has_file_ops content),
    (has_run_with_both_backends content || has_database_api content);
    simpl; split; try discriminate; try tauto; intros [? ?]; discriminate.
Qed.

(** X3. A text put together from two parts is backend-agnostic only if
    both parts are: joining texts never loses a platform-specific
    signal. *)
Theorem agnostic_parts (a b : text) :
  categorize (a ++ b) = backend_agnostic ->
  categorize a = backend_agnostic /\ categorize b = backend_agnostic.
Proof.
  rewrite !agnostic_iff. unfold has_storage_engine, has_file_ops.
  intros [Hse Hfo]. repeat split.
  - destruct (contains _ a) eqn:E; [|reflexivity].
    apply (contains_app_l _ a b) in E. congruence.
  - destruct (any_in _ a) eqn:E; [|reflexivity].
    apply (any_in_app_l _ a b) in E. congruence.
  - destruct (contains _ b) eqn:E; [|reflexivity].
    apply (contains_app_r _ a b) in E. congruence.
  - destruct (any_in _ b) eqn:E; [|reflexivity].
    apply (any_in_app_r _ a b) in E. congruence.
Qed.

Lemma agnostic_parts_witness :
  categorize Samples.simple_file = backend_agnostic
  /\ categorize Samples.nested_file = backend_agnostic.
Proof.
  apply (agnostic_parts Samples.simple_file Samples.nested_file).
  vm_compute. reflexivity.
Defined.

Lemma startswith_nil_false l : l <> [] -> startswith [] l = false.
Proof. destruct l; [congruence|reflexivity]. Qed.

Lemma match_at_lit l s i :
  match_at (Lit l) s i
  = if startswith s l then Some (Match i (i + length l) []) else None.
Proof.
  unfold match_at, startswith. simpl.
  now destruct (strip_prefix l s).
Qed.

Lemma finditer_lit_found l : l <> [] -> forall s i,
  finditer_go (Lit l) s i 0 <> [] <-> contains l s = true.
Proof.
  intros Hl. induction s as [|c s IH]; intros i.
  - simpl. rewrite (startswith_nil_false l Hl). simpl. split; [congruence|discriminate].
  - cbn [finditer_go contains]. rewrite match_at_lit.
    destruct (startswith (c :: s) l); simpl.
    + split; [reflexivity|discriminate].
    + apply IH.
Qed.

Lemma first_alt_some lits s l :
  first_alt lits s = Some l -> In l lits /\ startswith s l = true.
Proof. apply find_some. Qed.

Lemma count_alt_found lits :
  Forall (fun l => l <> []) lits -> forall s,
  count_alt_go lits s 0 <> 0 <-> any_in lits s = true.
Proof.
  intros Hne. unfold any_in. induction s as [|c s IH].
  - simpl. split; [congruence|]. rewrite existsb_exists.
    intros (p & Hin & Hc). simpl in Hc. rewrite orb_false_r in Hc.
    rewrite Forall_forall in Hne.
    rewrite startswith_nil_false in Hc; [discriminate|].
    apply Hne. now apply list_elem_of_In.
  - cbn [count_alt_go]. destruct (first_alt lits (c :: s)) as [l|] eqn:E.
    + split; [|lia]. intros _. apply first_alt_some in E as [Hin Hs].
      apply existsb_exists. exists l. split; [exact Hin|].
      simpl. now rewrite Hs.
    + rewrite IH, !existsb_exists. unfold first_alt in E.
      split; intros (p & Hin & Hc); exists p; (split; [exact Hin|]).
      * simpl. rewrite Hc. apply orb_true_r.
      * simpl in Hc. rewrite (find_none _ _ E p Hin) in Hc. exact Hc.
Qed.

(** X4. The analysis and the classifier agree: the analysis counts no
    [StorageEngine::new] exactly when the classifier's first signal is off,
    no file operation exactly when the second is off, and so a file is
    backend-agnostic exactly when both counts are zero. *)
Theorem analysis_agrees_with_classifier (file_path : string) (content : text) :
  let a := analyze_content file_path content in
  (a_storage_engine_ops a = 0 <-> has_storage_engine content = false)
  /\ (a_file_ops a = 0 <-> has_file_ops content = false)
  /\ (categorize content = backend_agnostic
      <-> a_storage_engine_ops a = 0 /\ a_file_ops a = 0).
Proof.
  intros a.
  assert (H1 : a_storage_engine_ops a = 0 <-> has_storage_engine content = false).
  { unfold a, analyze_content, has_storage_engine, storage_engine_pattern,
      finditer. simpl a_storage_engine_ops.
    pose proof (finditer_lit_found (txt "StorageEngine::new")
                  ltac:(discriminate) content 0) as H.
    destruct (finditer_go _ content 0 0) eqn:E;
      destruct (contains _ content) eqn:Ec; simpl; split; try reflexivity;
      try discriminate; intros _; exfalso.
    - destruct H as [_ H]. now apply H.
    - destruct H as [H _]. assert (false = true) by now apply H. discriminate. }
  assert (H2 : a_file_ops a = 0 <-> has_file_ops content = false).
  { unfold a, analyze_content, has_file_ops, count_alt. simpl a_file_ops.
    pose proof (count_alt_found file_ops_literals
                  ltac:(repeat constructor; discriminate) content) as H.
    fold file_ops_literals.
    destruct (count_alt_go file_ops_literals content 0) eqn:E;
      destruct (any_in file_ops_literals content) eqn:Ec; split;
      try reflexivity; try discriminate; intros _; exfalso.
    - destruct H as [_ H]. now apply H.
    - destruct H as [H _]. assert (false = true) by now apply H. discriminate. }
  split; [exact H1|]. split; [exact H2|].
  rewrite agnostic_iff, H1, H2. reflexivity.
Qed.

End IdentifyFacts.

(** ** More on refactor_tests_for_wasm.py *)

Module WasmFacts.

Import Wasm Props Notions.

Lemma collect_fold lines : forall acc,
  fold_left (fun test_lines line =>
               if keep_line line then test_lines ++ [line] else test_lines)
            lines acc
  = acc ++ List.filter keep_line lines.
Proof.
  induction lines as [|l ls IH]; intros acc; simpl.
  - now rewrite app_nil_r.
  - rewrite IH. destruct (keep_line l); [|reflexivity].
    now rewrite <- app_assoc.
Qed.

Lemma collect_lines_filter lines :
  collect_lines lines = List.filter keep_line lines.
Proof. unfold collect_lines. apply collect_fold. Qed.

Lemma all_space_lstrip s : forallb is_space s = true -> lstrip s = [].
Proof.
  induction s as [|c s IH]; simpl; [reflexivity|].
  destruct (is_space c); [exact IH|discriminate].
Qed.

Lemma strip_nil_iff s : strip s = [] <-> forallb is_space s = true.
Proof.
  split.
  - intros H. apply strip_blank in H. apply forallb_forall.
    intros c Hc. rewrite Forall_forall in H. apply H.
    now apply list_elem_of_In.
  - intros H. unfold strip. now rewrite (all_space_lstrip s H).
Qed.

Lemma rstrip_cons c s : is_space c = false -> rstrip (c :: s) = c :: rstrip s.
Proof. simpl. intros ->. now destruct (rstrip s). Qed.

(** A line is a comment after [strip] exactly when it is one after
    [lstrip]. *)
Lemma comment_strip s :
  startswith (strip s) (txt "//") = startswith (lstrip s) (txt "//").
Proof.
  unfold strip. apply eq_iff_eq_true. rewrite !startswith_true. split.
  - intros [r Hr]. destruct (rstrip_prefix (lstrip s)) as (post & Hp).
    exists (r ++ post). rewrite Hp at 1. rewrite Hr.
    now rewrite <- app_assoc.
  - intros [r ->]. exists (rstrip r).
    change (txt "//" ++ r) with (ascii_of_nat 47 :: ascii_of_nat 47 :: r).
    now rewrite !rstrip_cons by reflexivity.
Qed.

(** The filter of lines 86-93 keeps the lines of code. *)
Lemma keep_line_code line : keep_line line = is_code_line line.
Proof.
  unfold keep_line, is_code_line. rewrite negb_orb, comment_strip.
  f_equal. f_equal. apply eq_iff_eq_true. rewrite <- strip_nil_iff.
  destruct (strip line); split; congruence.
Qed.

(** X5. For a test that is neither converted nor simple,
    [refactor_test_function] keeps exactly the lines of the body that have
    something other than white space in them and do not start, after their
    leading white space, with [//]; it keeps them as they are and in their
    order, between the harness call with the test's name and the closing
    [Ok(())] and [})].  It returns [None] when there is no such line. *)
Theorem refactor_test_function_lines (info : test_info) :
  already_uses_rwb info = false ->
  is_simple_test info = false ->
  let kept :=
    List.filter
      (fun line => negb (forallb is_space line)
                   && negb (startswith (lstrip line) (txt "//")))
      (split_nl (body info)) in
  (kept = [] -> refactor_test_function info = None)
  /\ (kept <> [] ->
      refactor_test_function info
      = Some (txt "    run_with_both_backends(" ++ dq :: name info
                ++ dq :: txt ", |db_path| {" ++ nl :: join_nl kept
                ++ nl :: txt "        Ok(())" ++ nl :: txt "    })")).
Proof.
  intros H1 H2 kept. unfold refactor_test_function.
  rewrite H1, H2, collect_lines_filter.
  assert (Hk : List.filter keep_line (split_nl (body info)) = kept).
  { unfold kept. apply filter_ext. intros l. apply keep_line_code. }
  rewrite Hk. destruct kept; split; congruence.
Qed.

(** A body with a blank line, a comment and two statements gives the
    harness call around the two statements; a body of blank lines and
    comments gives [None]. *)
Lemma refactor_test_function_lines_witness :
  refactor_test_function
    (TestInfo (txt "t") (txt "Result<()>")
       (Samples.lines [""; "    // open the database";
                       "    let db = Database::open(p)?;"; "   ";
                       "    db.execute(a)?;"; ""]) false false)
  = Some (join_nl [ Samples.harness_call "t";
                    txt "    let db = Database::open(p)?;";
                    txt "    db.execute(a)?;";
                    txt "        Ok(())";
                    txt "    })" ])
  /\ refactor_test_function
       (TestInfo (txt "t") (txt "Result<()>")
          (Samples.lines [""; "    // db.execute(a)"; "   "]) false false)
     = None.
Proof.
  split.
  - apply (proj2 (refactor_test_function_lines
                    (TestInfo (txt "t") (txt "Result<()>")
                       (Samples.lines [""; "    // open the database";
                                       "    let db = Database::open(p)?;";
                                       "   "; "    db.execute(a)?;"; ""])
                       false false) eq_refl eq_refl)).
    vm_compute. discriminate.
  - apply (refactor_test_function_lines
             (TestInfo (txt "t") (txt "Result<()>")
                (Samples.lines [""; "    // db.execute(a)"; "   "])
                false false));
      reflexivity.
Defined.

(** X6. Whatever [refactor_test_function] returns starts with the call of
    the harness, so it holds the very substring the guard
    [already_uses_rwb] looks for. *)
Theorem refactored_body_calls_harness (info : test_info) (out : text) :
  refactor_test_function info = Some out ->
  startswith out (txt "    run_with_both_backends(") = true
  /\ contains (txt "run_with_both_backends(") out = true.
Proof.
  unfold refactor_test_function.
  destruct (already_uses_rwb info); [discriminate|].
  destruct (is_simple_test info); [discriminate|].
  destruct (collect_lines _); [discriminate|].
  intros [= <-]. split.
  - apply startswith_true. eexists. reflexivity.
  - apply contains_true. exists (txt "    "). eexists. reflexivity.
Qed.

Lemma refactored_body_calls_harness_witness :
  contains (txt "run_with_both_backends(")
    (txt "    run_with_both_backends(" ++ dq :: txt "t" ++ dq ::
     txt ", |db_path| {" ++ nl :: txt "    db.execute(a);" ++ nl ::
     txt "        Ok(())" ++ nl :: txt "    })") = true.
Proof.
  apply (refactored_body_calls_harness
           (TestInfo (txt "t") (txt "Result<()>")
              (txt "    db.execute(a);") false false)).
  reflexivity.
Defined.

(** X7. [add_import] only inserts: the text it was given is still there,
    cut in two around the inserted import, and the result holds the import
    line that line 114 looks for. *)
Theorem add_import_inserts (new_content : text) :
  (exists pre inserted post,
      new_content = pre ++ post
      /\ add_import new_content = pre ++ inserted ++ post)
  /\ contains (txt "use test_helpers::run_with_both_backends;")
       (add_import new_content) = true.
Proof.
  unfold add_import.
  destruct (last (finditer use_pattern new_content)) as [last_use|].
  - split.
    + exists (take (m_end last_use) new_content),
        (nl :: txt "use test_helpers::run_with_both_backends;" ++ [nl]),
        (drop (m_end last_use) new_content).
      split; [now rewrite take_drop|].
      generalize (txt "use test_helpers::run_with_both_backends;").
      intros imp. f_equal. cbn [app]. f_equal.
      now rewrite <- app_assoc.
    + apply contains_true.
      exists (take (m_end last_use) new_content ++ [nl]),
        (nl :: drop (m_end last_use) new_content).
      generalize (txt "use test_helpers::run_with_both_backends;").
      intros imp. now rewrite <- app_assoc.
  - split.
    + exists [], (txt "use test_helpers::run_with_both_backends;" ++ [nl; nl]),
        new_content.
      split; [reflexivity|].
      generalize (txt "use test_helpers::run_with_both_backends;").
      intros imp. cbn [app]. now rewrite <- app_assoc.
    + apply contains_true. exists [], (nl :: nl :: new_content). reflexivity.
Qed.

(** X8. The end offset of the depth scan is never before [brace_start];
    when it differs from [brace_start] it lies inside the text, after
    [brace_start], and the character just before it is a closing brace. *)
Theorem find_brace_end_bounds (content : text) (brace_start : nat) :
  let brace_end := find_brace_end content brace_start in
  brace_start <= brace_end
  /\ (brace_end = brace_start
      \/ (brace_start < brace_end /\ brace_end <= length content
          /\ content !! (brace_end - 1) = Some rbrace)).
Proof.
  intros brace_end. unfold brace_end, find_brace_end.
  destruct (Locator.scan_braces_raw (drop brace_start content) brace_start
              0%Z brace_start) as [(k & Hk & _ & _ & Hr) | (_ & Hr)];
    rewrite Hr.
  - split; [lia|]. right. rewrite lookup_drop in Hk.
    pose proof (lookup_lt_Some _ _ _ Hk) as Hlt.
    split; [lia|]. split; [lia|].
    replace (brace_start + k + 1 - 1) with (brace_start + k) by lia.
    exact Hk.
  - split; [lia|]. now left.
Qed.

(** What the commit block does to the files. *)
Lemma backup_and_write_files path backup_path content w w' :
  backup_and_write path backup_path content w = Some w' ->
  exists original,
    files w !! path = Some original
    /\ files w' = <[path := content]> (<[backup_path := original]> (files w)).
Proof.
  unfold backup_and_write, copy2.
  destruct (decide (path = backup_path)); [discriminate|].
  destruct (files w !! path) as [original|]; [|discriminate].
  intros [= <-]. exists original. split; reflexivity.
Qed.

Lemma refactor_test_file_unrelated filepath p w w' result :
  refactor_test_file filepath w = Some (result, w') ->
  p <> filepath ->
  p <> (filepath +:+ ".backup")%string ->
  files w' !! p = files w !! p.
Proof.
  unfold refactor_test_file. intros H Hp Hb.
  destruct (read_file filepath w) as [content|]; [|discriminate].
  destruct (refactor_content content) as [new_content modified].
  destruct modified.
  - destruct (backup_and_write _ _ _ w) as [w1|] eqn:E; [|discriminate].
    injection H as _ <-.
    apply backup_and_write_files in E as (original & _ & ->).
    rewrite !lookup_insert_ne by congruence. reflexivity.
  - now injection H as _ <-.
Qed.

(** X9. [refactor_test_file] leaves every file alone but the one it is
    given and that file's backup, and when it returns [False] it has done
    nothing at all. *)
Theorem refactor_test_file_frame
  (filepath : string) (w w' : world) (result : bool) :
  refactor_test_file filepath w = Some (result, w') ->
  (forall p, p <> filepath -> p <> (filepath +:+ ".backup")%string ->
             files w' !! p = files w !! p)
  /\ (result = false -> w' = w).
Proof.
  intros H. split.
  - intros p Hp Hb. exact (refactor_test_file_unrelated _ _ _ _ _ H Hp Hb).
  - intros ->. unfold refactor_test_file in H.
    destruct (read_file filepath w) as [content|]; [|discriminate].
    destruct (refactor_content content) as [new_content modified].
    destruct modified; [|now injection H as <-].
    destruct (backup_and_write _ _ _ w); discriminate.
Qed.

Lemma refactor_test_file_frame_witness :
  let w := World {[ "tests/a.rs"%string := Samples.nested_file;
                    "tests/b.rs"%string := Samples.scenario_a_file ]} [] in
  files (Samples.after_run "tests/a.rs" w) !! "tests/b.rs"%string
  = files w !! "tests/b.rs"%string.
Proof.
  intros w.
  apply (refactor_test_file_frame "tests/a.rs" w
           (Samples.after_run "tests/a.rs" w) true);
    [vm_compute; reflexivity | discriminate | discriminate].
Defined.

End WasmFacts.

(** ** The [main] functions *)

Module MainFacts.

Import Wasm Main Notions.

Lemma wasm_loop_frame : forall test_files total w n w',
  wasm_loop test_files total w = Some (n, w') ->
  total <= n /\ n <= total + length test_files
  /\ forall p,
       (forall f, In f test_files ->
                  p <> f /\ p <> (f +:+ ".backup")%string) ->
       files w' !! p = files w !! p.
Proof.
  induction test_files as [|f rest IH]; intros total w n w' H; simpl in H.
  - injection H as <- <-. simpl. repeat split; lia || reflexivity.
  - destruct (refactor_test_file f w) as [[result w1]|] eqn:E; [|discriminate].
    assert (Hrest : exists t, t <= total + 1 /\ total <= t
                              /\ wasm_loop rest t w1 = Some (n, w')).
    { destruct result; eexists; (split; [|split; [|exact H]]); lia. }
    destruct Hrest as (t & Ht1 & Ht2 & Hloop).
    apply IH in Hloop as (Hn1 & Hn2 & Hframe). simpl.
    repeat split; try lia.
    intros p Hp. rewrite Hframe.
    + apply (WasmFacts.refactor_test_file_unrelated f p w w1 result E);
        apply (Hp f); now left.
    + intros f' Hf'. apply Hp. now right.
Qed.

Lemma has_slash_append f t :
  has_slash (f +:+ t) = has_slash f || has_slash t.
Proof.
  induction f as [|c f IH]; [reflexivity|].
  change (String c f +:+ t)%string with (String c (f +:+ t)).
  simpl. now rewrite IH, orb_assoc.
Qed.

Lemma basename_plain t : has_slash t = false -> basename t = t.
Proof.
  destruct t as [|c t]; [reflexivity|]. simpl.
  intros H. apply orb_false_iff in H as [Hc Ht]. now rewrite Ht, Hc.
Qed.

(** The base name of a backup path is the base name of the path followed
    by [.backup]. *)
Lemma basename_append f t :
  has_slash t = false -> basename (f +:+ t) = (basename f +:+ t)%string.
Proof.
  intros Ht. induction f as [|c f IH].
  - now apply basename_plain.
  - change (String c f +:+ t)%string with (String c (f +:+ t)).
    simpl. rewrite has_slash_append, Ht, orb_false_r.
    destruct (has_slash f); [exact IH|].
    destruct (chr_eqb c slash); reflexivity.
Qed.

Lemma ends_in_backup_append x : ends_in_backup (x +:+ ".backup") = true.
Proof.
  induction x as [|c x IH]; [reflexivity|].
  change (String c x +:+ ".backup")%string with (String c (x +:+ ".backup")).
  simpl. rewrite IH. apply orb_true_r.
Qed.

Lemma text_eqb_eq a : forall b, text_eqb a b = true -> a = b.
Proof.
  induction a as [|x a IH]; intros [|y b] H; simpl in H;
    try discriminate; [reflexivity|].
  apply andb_true_iff in H as [Hxy Hab].
  apply chr_eqb_true in Hxy. subst y. f_equal. now apply IH.
Qed.

Lemma txt_inj a b : txt a = txt b -> a = b.
Proof.
  unfold txt. intros H. apply (f_equal string_of_list_ascii) in H.
  now rewrite !string_of_list_ascii_of_string in H.
Qed.

(** No exempted file name ends in [.backup]. *)
Lemma exempt_not_backup name :
  is_platform_specific_file (txt name) = true -> ends_in_backup name = false.
Proof.
  unfold is_platform_specific_file, mem. rewrite existsb_exists.
  intros (n & Hin & Heq). apply text_eqb_eq in Heq.
  unfold PLATFORM_SPECIFIC_FILES in Hin.
  destruct Hin as [Hin|[Hin|[Hin|[Hin|[Hin|[]]]]]];
    rewrite <- Hin in Heq; apply txt_inj in Heq; subst name; reflexivity.
Qed.

Lemma wasm_test_files_spec glob_result f :
  In f (wasm_test_files glob_result) ->
  In f glob_result /\ is_platform_specific_file (txt (basename f)) = false.
Proof.
  unfold wasm_test_files. rewrite filter_In, negb_true_iff. tauto.
Qed.

(** X11. [main] of refactor_tests_for_wasm.py never changes a file whose
    name is in [PLATFORM_SPECIFIC_FILES], whether the glob lists it or not:
    such a file is neither refactored nor used as another file's backup.
    The count it reports is at most the number of files of the glob. *)
Theorem wasm_main_spares_exempt
  (glob_result : list string) (w w' : world) (n : nat) (p : string) :
  wasm_main glob_result w = Some (n, w') ->
  is_platform_specific_file (txt (basename p)) = true ->
  files w' !! p = files w !! p /\ n <= length glob_result.
Proof.
  unfold wasm_main. intros H Hp.
  apply wasm_loop_frame in H as (_ & Hn & Hframe). split.
  - apply Hframe. intros f Hf.
    apply wasm_test_files_spec in Hf as [_ Hf]. split.
    + intros ->. congruence.
    + intros ->. apply exempt_not_backup in Hp.
      rewrite basename_append in Hp by reflexivity.
      now rewrite ends_in_backup_append in Hp.
  - simpl in Hn. etransitivity; [exact Hn|].
    unfold wasm_test_files. apply filter_length_le.
Qed.

Lemma wasm_main_spares_exempt_witness :
  let w := World {[ "tests/a.rs"%string := Samples.nested_file;
                    "tests/engine_tests.rs"%string := Samples.nested_file ]} []
  in
  exists w',
    wasm_main ["tests/a.rs"; "tests/engine_tests.rs"]%string w = Some (1, w')
    /\ files w' !! "tests/engine_tests.rs"%string = Some Samples.nested_file
    /\ files w' !! "tests/a.rs"%string
       = Some Samples.nested_file_wasm_output.
Proof.
  intros w. eexists. split; [vm_compute; reflexivity|]. split.
  - refine (proj1 (wasm_main_spares_exempt
                     ["tests/a.rs"; "tests/engine_tests.rs"]%string w _ 1
                     "tests/engine_tests.rs" _ _)); vm_compute; reflexivity.
  - vm_compute. reflexivity.
Defined.

End MainFacts.

(** ** What the matcher finds *)

Module ReFacts.

Import ReSem Notions.

Lemma star_greedy_sound {A} p s : forall i k (a : A),
  star_greedy p s i k = Some a ->
  exists w s', s = w ++ s' /\ Forall (fun c => p c = true) w
               /\ k s' (i + length w) = Some a.
Proof.
  induction s as [|c s IH]; intros i k a H; simpl in H.
  - exists [], []. simpl. rewrite Nat.add_0_r. auto.
  - destruct (p c) eqn:Hp.
    + destruct (star_greedy p s (S i) k) as [a'|] eqn:E.
      * injection H as ->. apply IH in E as (w & s' & -> & Hw & Hk).
        exists (c :: w), s'. repeat split; [now constructor|].
        simpl. now rewrite Nat.add_succ_r.
      * exists [], (c :: s). simpl. rewrite Nat.add_0_r. auto.
    + exists [], (c :: s). simpl. rewrite Nat.add_0_r. auto.
Qed.

Lemma star_lazy_sound {A} p s : forall i k (a : A),
  star_lazy p s i k = Some a ->
  exists w s', s = w ++ s' /\ Forall (fun c => p c = true) w
               /\ k s' (i + length w) = Some a.
Proof.
  induction s as [|c s IH]; intros i k a H; simpl in H.
  - destruct (k [] i) eqn:E; [|discriminate]. injection H as ->.
    exists [], []. simpl. rewrite Nat.add_0_r. auto.
  - destruct (k (c :: s) i) eqn:E.
    + injection H as ->. exists [], (c :: s). simpl.
      rewrite Nat.add_0_r. auto.
    + destruct (p c) eqn:Hp; [|discriminate].
      apply IH in H as (w & s' & -> & Hw & Hk).
      exists (c :: w), s'. repeat split; [now constructor|].
      simpl. now rewrite Nat.add_succ_r.
Qed.

(** The matcher is sound: when it succeeds it has read a text the pattern
    matches, put the spans of the groups in front of those it had, and
    gone on with what follows that text. *)
Lemma run_sound {A} r : forall s i g k (a : A),
  run r s i g k = Some a ->
  exists w s' g1,
    s = w ++ s' /\ matches r i w g1
    /\ k s' (i + length w) (g1 ++ g) = Some a.
Proof.
  induction r as [l | p | p | p | p | r IH | r1 IH1 r2 IH2 | n r IH];
    intros s i g k a H; simpl in H.
  - destruct (strip_prefix l s) as [s'|] eqn:E; [|discriminate].
    apply strip_prefix_inv in E. exists l, s', []. simpl. auto.
  - destruct s as [|c s]; [discriminate|].
    destruct (p c) eqn:Hp; [|discriminate].
    exists [c], s, []. simpl. rewrite Nat.add_1_r. eauto 7.
  - apply star_greedy_sound in H as (w & s' & -> & Hw & Hk).
    exists w, s', []. simpl. auto.
  - destruct s as [|c s]; [discriminate|].
    destruct (p c) eqn:Hp; [|discriminate].
    apply star_greedy_sound in H as (w & s' & -> & Hw & Hk).
    exists (c :: w), s', []. simpl. rewrite Nat.add_succ_r.
    repeat split; [discriminate|now constructor|exact Hk].
  - apply star_lazy_sound in H as (w & s' & -> & Hw & Hk).
    exists w, s', []. simpl. auto.
  - destruct (run r s i g k) as [a'|] eqn:E.
    + injection H as ->. apply IH in E as (w & s' & g1 & -> & Hl & Hk).
      exists w, s', g1. simpl. auto.
    + exists [], s, []. simpl. rewrite Nat.add_0_r. auto.
  - apply IH1 in H as (w1 & s1 & g1 & -> & Hl1 & H).
    apply IH2 in H as (w2 & s2 & g2 & -> & Hl2 & H).
    exists (w1 ++ w2), s2, (g2 ++ g1). repeat split.
    + now rewrite app_assoc.
    + simpl. exists w1, w2, g1, g2. auto.
    + rewrite length_app, Nat.add_assoc, <- app_assoc. exact H.
  - apply IH in H as (w & s' & g1 & -> & Hl & Hk).
    exists w, s', ((n, (i, i + length w)) :: g1). repeat split.
    + simpl. eauto.
    + exact Hk.
Qed.

Lemma match_at_sound r s i m :
  match_at r s i = Some m ->
  m_start m = i
  /\ exists w s',
       s = w ++ s' /\ m_end m = i + length w
       /\ matches r i w (m_groups m).
Proof.
  unfold match_at. intros H.
  apply run_sound in H as (w & s' & g1 & -> & Hl & H).
  injection H as <-. simpl. split; [reflexivity|].
  exists w, s'. rewrite app_nil_r. auto.
Qed.

Lemma slice_middle (x y z : text) :
  slice (x ++ y ++ z) (length x) (length x + length y) = y.
Proof.
  unfold slice. rewrite drop_app_length.
  replace (length x + length y - length x) with (length y) by lia.
  apply take_app_length.
Qed.

Lemma ordered_from_weaken ms : forall lo lo',
  lo' <= lo -> ordered_from lo ms -> ordered_from lo' ms.
Proof.
  destruct ms as [|m ms]; intros lo lo' Hle H; [exact I|].
  simpl in *. destruct H as (H1 & H2 & H3). repeat split; try lia.
  exact H3.
Qed.

(** The matches of [finditer] on the text [s] that follows [pre]. *)
Lemma finditer_go_spec r content : forall s pre skip,
  content = pre ++ s ->
  ordered_from (length pre + skip) (finditer_go r s (length pre) skip)
  /\ Forall (fun m => m_end m <= length content
                      /\ matches r (m_start m) (group0 content m)
                           (m_groups m))
       (finditer_go r s (length pre) skip).
Proof.
  induction s as [|c s IH]; intros pre skip Hc; [split; constructor|].
  assert (Hnext : content = (pre ++ [c]) ++ s) by now rewrite <- app_assoc.
  assert (Hlen : length (pre ++ [c]) = S (length pre))
    by (rewrite length_app; simpl; lia).
  cbn [finditer_go]. destruct skip as [|k].
  - destruct (match_at r (c :: s) (length pre)) as [m|] eqn:E.
    + apply match_at_sound in E as (Hs & w & s' & Hw & He & Hm).
      destruct (IH (pre ++ [c]) (m_end m - length pre - 1) Hnext)
        as [Ho Hf].
      rewrite Hlen in Ho, Hf. split.
      * simpl. repeat split; try lia.
        replace (Nat.max (S (m_start m)) (m_end m))
          with (S (length pre) + (m_end m - length pre - 1)) by lia.
        exact Ho.
      * constructor; [|exact Hf]. split.
        -- rewrite Hc, Hw, He, !length_app. lia.
        -- unfold group0. rewrite Hs, He, Hc, Hw.
           rewrite slice_middle. exact Hm.
    + destruct (IH (pre ++ [c]) 0 Hnext) as [Ho Hf].
      rewrite Hlen in Ho, Hf. split; [|exact Hf].
      eapply ordered_from_weaken; [|exact Ho]. lia.
  - destruct (IH (pre ++ [c]) k Hnext) as [Ho Hf].
    rewrite Hlen in Ho, Hf. split; [|exact Hf].
    eapply ordered_from_weaken; [|exact Ho]. lia.
Qed.

Lemma ordered_from_all ms : forall lo,
  ordered_from lo ms ->
  Forall (fun m => lo <= m_start m /\ m_start m <= m_end m) ms.
Proof.
  induction ms as [|m ms IH]; intros lo H; [constructor|].
  simpl in H. destruct H as (H1 & H2 & H3). constructor; [lia|].
  apply IH in H3. eapply Forall_impl; [exact H3|]. simpl. lia.
Qed.

Lemma ordered_from_pairs ms : forall lo i j m1 m2,
  ordered_from lo ms -> i < j ->
  ms !! i = Some m1 -> ms !! j = Some m2 -> before m1 m2.
Proof.
  induction ms as [|m ms IH]; intros lo i j m1 m2 H Hij H1 H2;
    [discriminate|].
  simpl in H. destruct H as (Ha & Hb & Hc).
  destruct j as [|j]; [lia|]. simpl in H2. destruct i as [|i].
  - injection H1 as ->. apply ordered_from_all in Hc.
    rewrite Forall_forall in Hc.
    destruct (Hc m2 (list_elem_of_lookup_2 _ _ _ H2)) as [Hd _].
    unfold before. lia.
  - simpl in H1. apply (IH _ i j m1 m2 Hc); [lia|assumption|assumption].
Qed.

Lemma finditer_ordered r content : ordered_from 0 (finditer r content).
Proof.
  exact (proj1 (finditer_go_spec r content content [] 0 eq_refl)).
Qed.

Lemma finditer_all r content :
  Forall (fun m => m_start m <= m_end m /\ m_end m <= length content
                   /\ matches r (m_start m) (group0 content m)
                        (m_groups m))
    (finditer r content).
Proof.
  unfold finditer.
  destruct (finditer_go_spec r content content [] 0 eq_refl) as [Ho Hf].
  simpl in Ho, Hf.
  apply ordered_from_all in Ho. rewrite Forall_forall in Ho, Hf.
  apply Forall_forall. intros m Hm.
  destruct (Ho m Hm) as [_ H1]. destruct (Hf m Hm) as [H2 H3]. auto.
Qed.

End ReFacts.

(** ** What the locating patterns find *)

Module LocatedFacts.

Import ReSem Notions ReFacts.

Lemma matches_seq_app rs1 rs2 : forall i w g,
  matches (seq (rs1 ++ rs2)) i w g ->
  exists w1 w2 g1 g2,
    w = w1 ++ w2 /\ g = g2 ++ g1
    /\ matches (seq rs1) i w1 g1
    /\ matches (seq rs2) (i + length w1) w2 g2.
Proof.
  induction rs1 as [|r rs1 IH]; intros i w g H.
  - exists [], w, [], g. simpl. rewrite app_nil_r, Nat.add_0_r. auto.
  - change (seq ((r :: rs1) ++ rs2)) with (Seq r (seq (rs1 ++ rs2))) in H.
    simpl in H. destruct H as (wa & wb & ga & gb & -> & -> & Ha & Hb).
    apply IH in Hb as (w1 & w2 & g1 & g2 & -> & -> & H1 & H2).
    exists (wa ++ w1), w2, (g1 ++ ga), g2. repeat split.
    + now rewrite app_assoc.
    + now rewrite app_assoc.
    + change (seq (r :: rs1)) with (Seq r (seq rs1)). simpl.
      exists wa, w1, ga, g1. auto.
    + now rewrite length_app, Nat.add_assoc.
Qed.

Lemma non_rbrace w :
  Forall (fun c => non "}" c = true) w -> rbrace ∉ w.
Proof.
  intros H Hin. rewrite Forall_forall in H. specialize (H _ Hin).
  discriminate.
Qed.

Lemma matches_body_tail n j w g :
  matches (seq (body_tail n)) j w g ->
  exists body,
    w = lbrace :: body ++ [rbrace]
    /\ g = [(n, (j + 1, j + 1 + length body))]
    /\ body <> [] /\ rbrace ∉ body.
Proof.
  unfold body_tail.
  change (seq [Lit (txt "{"); Group n (Plus (non "}")); Lit (txt "}")])
    with (Seq (Lit [lbrace])
            (Seq (Group n (Plus (non "}"))) (Seq (Lit [rbrace]) (Lit [])))).
  simpl.
  intros (w1 & w2 & g1 & g2 & -> & -> & (-> & ->)
          & w3 & w4 & g3 & g4 & -> & -> & (g5 & -> & (Hne & Hall) & ->)
          & w5 & w6 & g6 & g7 & -> & -> & (-> & ->) & -> & ->).
  exists w3. simpl. repeat split; auto. now apply non_rbrace.
Qed.

Lemma slice_length content a b :
  a <= b -> b <= length content -> length (slice content a b) = b - a.
Proof.
  intros Hab Hb. unfold slice. rewrite length_take, length_drop. lia.
Qed.

Lemma slice_split content a b :
  a <= b -> b <= length content ->
  content = take a content ++ slice content a b ++ drop b content.
Proof.
  intros Hab Hb. unfold slice.
  rewrite <- (take_drop a content) at 1. f_equal.
  rewrite <- (take_drop (b - a) (drop a content)) at 1. f_equal.
  rewrite drop_drop. f_equal. lia.
Qed.

(** A match of a pattern that ends in [body_tail n]. *)
Lemma tail_match_body header n content m :
  m_start m <= m_end m -> m_end m <= length content ->
  matches (seq (header ++ body_tail n)) (m_start m) (group0 content m)
    (m_groups m) ->
  body_between content m n.
Proof.
  intros Hse Hel H.
  apply matches_seq_app in H as (w1 & w2 & g1 & g2 & Hw & Hg & _ & H2).
  apply matches_body_tail in H2 as (body & -> & -> & Hne & Hno).
  exists w1, body. split; [exact Hw|]. split; [|auto].
  unfold group. rewrite Hg. simpl span_of. rewrite Nat.eqb_refl.
  pose proof (slice_split content _ _ Hse Hel) as Hc.
  pose proof (slice_length content _ _ Hse Hel) as Hl.
  unfold group0 in Hw. rewrite Hw in Hc, Hl.
  rewrite !length_app in Hl. simpl in Hl.
  assert (Hc' : content
                = (take (m_start m) content ++ w1 ++ [lbrace])
                  ++ body ++ (rbrace :: drop (m_end m) content)).
  { rewrite Hc at 1. rewrite <- !app_assoc. simpl.
    now rewrite <- !app_assoc. }
  assert (Hx : length (take (m_start m) content ++ w1 ++ [lbrace])
               = m_start m + length w1 + 1).
  { rewrite !length_app, length_take. simpl. lia. }
  rewrite Hc' at 1. rewrite <- Hx. apply slice_middle.
Qed.

(** X19. The test functions that [refactor_test_file] locates with the
    pattern of line 118 are stretches of the file that are not empty, come
    in text order and do not overlap. *)
Theorem located_functions_in_order (content : text) :
  (forall i j m1 m2,
      i < j ->
      finditer Wasm.test_pattern content !! i = Some m1 ->
      finditer Wasm.test_pattern content !! j = Some m2 ->
      m_start m1 < m_start m2 /\ m_end m1 <= m_start m2)
  /\ Forall (fun m => m_start m < m_end m /\ m_end m <= length content)
       (finditer Wasm.test_pattern content).
Proof.
  split.
  - intros i j m1 m2 Hij H1 H2.
    exact (ordered_from_pairs _ 0 i j m1 m2
             (finditer_ordered Wasm.test_pattern content) Hij H1 H2).
  - pose proof (finditer_all Wasm.test_pattern content) as Hf.
    eapply Forall_impl; [exact Hf|]. intros m (H1 & H2 & H3).
    split; [|exact H2].
    pose proof (slice_length content _ _ H1 H2) as Hl.
    destruct (tail_match_body wasm_header 3 content m H1 H2 H3)
      as (head & body & Hg & _).
    unfold group0 in Hg. rewrite Hg in Hl.
    rewrite length_app in Hl. simpl in Hl. lia.
Qed.

(** X21. Whatever the text, the body that the pattern of line 118
    captures is the text between an opening brace and the first closing
    brace after it: the body group is not empty, holds no closing brace,
    and the match ends with the closing brace that follows it. *)
Theorem located_body_stops_at_first_brace (content : text) (m : rmatch) :
  m ∈ finditer Wasm.test_pattern content -> body_between content m 3.
Proof.
  intros Hm.
  pose proof (finditer_all Wasm.test_pattern content) as Hf.
  rewrite Forall_forall in Hf. destruct (Hf m Hm) as (H1 & H2 & H3).
  now apply (tail_match_body wasm_header 3).
Qed.

(** The one test of [nested_file]: its captured body stops before the
    brace that closes the inner block. *)
Lemma located_body_stops_at_first_brace_witness :
  body_between Samples.nested_file
    (Match 0 103 [(3, (52, 102)); (2, (40, 50)); (1, (11, 34))]) 3.
Proof.
  apply (located_body_stops_at_first_brace Samples.nested_file).
  vm_compute. set_solver.
Defined.

Lemma find_at_unfold sub s i :
  find_at sub s i
  = if startswith s sub then Some i
    else match s with
         | [] => None
         | _ :: s' => find_at sub s' (S i)
         end.
Proof. destruct s; reflexivity. Qed.

(** [find] finds an occurrence that is there, at or before it. *)
Lemma find_at_found sub y : forall x i,
  exists j,
    find_at sub (x ++ sub ++ y) i = Some j
    /\ i <= j /\ j <= i + length x
    /\ startswith (drop (j - i) (x ++ sub ++ y)) sub = true.
Proof.
  induction x as [|c x IH]; intros i; rewrite find_at_unfold.
  - simpl app.
    assert (H : startswith (sub ++ y) sub = true)
      by (apply startswith_true; eauto).
    rewrite H. exists i. rewrite Nat.sub_diag, drop_0. simpl.
    repeat split; auto; lia.
  - destruct (startswith ((c :: x) ++ sub ++ y) sub) eqn:E.
    + exists i. rewrite Nat.sub_diag, drop_0. simpl length.
      repeat split; auto; lia.
    + simpl app. destruct (IH (S i)) as (j & Hj & H1 & H2 & H3).
      exists j. simpl length. repeat split; try lia; [exact Hj|].
      replace (j - i) with (S (j - S i)) by lia. exact H3.
Qed.

Lemma located_brace content m :
  m ∈ finditer Wasm.test_pattern content ->
  exists brace_start,
    find_from (txt "{") content (m_start m) = Some brace_start
    /\ m_start m <= brace_start /\ brace_start < m_end m
    /\ content !! brace_start = Some lbrace.
Proof.
  intros Hm.
  pose proof (finditer_all Wasm.test_pattern content) as Hf.
  rewrite Forall_forall in Hf. destruct (Hf m Hm) as (Hse & Hel & Hmat).
  destruct (tail_match_body wasm_header 3 content m Hse Hel Hmat)
    as (head & body & Hw & _).
  pose proof (slice_split content _ _ Hse Hel) as Hc.
  pose proof (slice_length content _ _ Hse Hel) as Hl.
  unfold group0 in Hw. rewrite Hw in Hc, Hl.
  rewrite length_app in Hl. simpl in Hl. rewrite length_app in Hl.
  simpl in Hl.
  assert (Hdrop : drop (m_start m) content
                  = head ++ [lbrace]
                    ++ (body ++ [rbrace] ++ drop (m_end m) content)).
  { rewrite Hc at 1. rewrite drop_app_length'.
    - rewrite <- !app_assoc. simpl. now rewrite <- !app_assoc.
    - rewrite length_take. lia. }
  unfold find_from.
  destruct (length content <? m_start m) eqn:Eb;
    [apply Nat.ltb_lt in Eb; lia|].
  rewrite Hdrop.
  destruct (find_at_found [lbrace]
              (body ++ [rbrace] ++ drop (m_end m) content) head (m_start m))
    as (j & Hj & H1 & H2 & H3).
  exists j. split; [exact Hj|]. split; [exact H1|]. split; [lia|].
  rewrite <- Hdrop in H3. apply startswith_true in H3 as (rest & H3).
  rewrite drop_drop in H3.
  replace (m_start m + (j - m_start m)) with j in H3 by lia.
  rewrite <- (Nat.add_0_r j), <- lookup_drop, H3. reflexivity.
Qed.

Lemma refactored_body_not_empty info out :
  Wasm.refactor_test_function info = Some out -> out <> [].
Proof.
  unfold Wasm.refactor_test_function.
  destruct (Wasm.already_uses_rwb info); [discriminate|].
  destruct (Wasm.is_simple_test info); [discriminate|].
  destruct (Wasm.collect_lines _); [discriminate|].
  intros [= <-]. discriminate.
Qed.

(** X22. For every function that [refactor_test_file] locates, the search
    for the opening brace of line 155 succeeds: it finds a brace at or
    after the start of the match and before its end, so the test
    [brace_start != -1] of line 156 never fails; and when the function is
    not skipped and [refactor_test_function] gives a body, the round of
    the loop sets [modified]. *)
Theorem located_brace_found (content : text) (m : rmatch) :
  m ∈ finditer Wasm.test_pattern content ->
  (exists brace_start,
      find_from (txt "{") content (m_start m) = Some brace_start
      /\ m_start m <= brace_start /\ brace_start < m_end m
      /\ content !! brace_start = Some lbrace)
  /\ forall st,
       Props.skipped content m = false ->
       Wasm.refactor_test_function
         (Wasm.extract_test_function_info content m) <> None ->
       snd (Wasm.process_match content st m) = true.
Proof.
  intros Hm. pose proof (located_brace content m Hm) as Hb.
  split; [exact Hb|].
  destruct Hb as (bs & Hfind & _).
  intros [new_content modified] Hskip Hsome.
  unfold Props.skipped in Hskip. unfold Wasm.process_match.
  apply orb_false_iff in Hskip as [Hskip H3].
  apply orb_false_iff in Hskip as [H1 H2].
  rewrite H1, H2, H3.
  destruct (Wasm.refactor_test_function _) as [out|] eqn:E; [|congruence].
  pose proof (refactored_body_not_empty _ _ E) as Hne.
  destruct out; [congruence|]. now rewrite Hfind.
Qed.

Lemma located_brace_found_witness :
  exists brace_start,
    find_from (txt "{") Samples.nested_file 0 = Some brace_start
    /\ 0 <= brace_start /\ brace_start < 103
    /\ Samples.nested_file !! brace_start = Some lbrace.
Proof.
  refine (proj1 (located_brace_found Samples.nested_file
           (Match 0 103 [(3, (52, 102)); (2, (40, 50)); (1, (11, 34))]) _)).
  vm_compute. left.
Defined.

(** The rounds of the loop, last match first. *)
Lemma process_matches_unfold content ms :
  Wasm.process_matches content ms
  = fold_right (fun m acc => Wasm.process_match content acc m)
      (content, false) ms.
Proof.
  unfold Wasm.process_matches.
  induction ms as [|m ms IH]; [reflexivity|].
  simpl rev. rewrite fold_left_app. simpl. now rewrite IH.
Qed.

Lemma take_prefix_length (a b : text) p :
  take p a = take p b -> p <= length b -> p <= length a.
Proof.
  intros H Hp. apply (f_equal length) in H.
  rewrite !length_take in H. lia.
Qed.

Lemma process_match_prefix content st m p :
  m ∈ finditer Wasm.test_pattern content ->
  m_end m <= p -> p <= length content ->
  take p (fst st) = take p content ->
  take (m_start m) (fst (Wasm.process_match content st m))
  = take (m_start m) content.
Proof.
  intros Hm Hep Hp Hinv.
  destruct (located_brace content m Hm) as (bs & Hfind & Hb1 & Hb2 & _).
  assert (Hkeep : take (m_start m) (fst st) = take (m_start m) content).
  { apply (f_equal (take (m_start m))) in Hinv.
    rewrite !take_take in Hinv.
    now replace (Nat.min (m_start m) p) with (m_start m) in Hinv by lia. }
  destruct st as [new_content modified]. simpl fst in Hinv, Hkeep.
  unfold Wasm.process_match.
  destruct (Wasm.is_platform_specific_test _); [exact Hkeep|].
  destruct (Wasm.already_uses_rwb _); [exact Hkeep|].
  destruct (Wasm.is_simple_test _); [exact Hkeep|].
  destruct (Wasm.refactor_test_function _) as [[|c out]|]; try exact Hkeep.
  rewrite Hfind. simpl fst.
  pose proof (take_prefix_length _ _ _ Hinv Hp) as Hlen.
  rewrite take_app_le by (rewrite length_take; lia).
  rewrite take_take.
  replace (Nat.min (m_start m) (bs + 1)) with (m_start m) by lia.
  exact Hkeep.
Qed.

Lemma process_matches_prefix content : forall ms lo,
  ordered_from lo ms ->
  Forall (fun m => m ∈ finditer Wasm.test_pattern content) ms ->
  let bound := match ms with
               | [] => length content
               | m :: _ => m_start m
               end in
  bound <= length content
  /\ take bound (fst (Wasm.process_matches content ms)) = take bound content.
Proof.
  induction ms as [|m ms IH]; intros lo Ho Hall bound.
  - split; [reflexivity|reflexivity].
  - inversion Hall as [|? ? Hm Hms]; subst.
    simpl in Ho. destruct Ho as (_ & Hse & Ho).
    destruct (IH _ Ho Hms) as [Hb Hinv].
    pose proof (finditer_all Wasm.test_pattern content) as Hf.
    rewrite Forall_forall in Hf. destruct (Hf m Hm) as (_ & Hel & _).
    unfold bound. split; [lia|].
    rewrite process_matches_unfold. simpl fold_right.
    rewrite <- process_matches_unfold.
    apply (process_match_prefix content _ m
             (match ms with [] => length content | m' :: _ => m_start m' end));
      auto.
    destruct ms as [|m' ms']; [exact Hel|].
    simpl in Ho. lia.
Qed.

(** X23. The rewriting loop of [refactor_test_file] leaves the text before
    the first located test function as it is: every edit starts at the
    opening brace of a located function, and the functions are taken from
    the last to the first. *)
Theorem text_before_first_test_kept
  (content : text) (m : rmatch) (ms : list rmatch) :
  finditer Wasm.test_pattern content = m :: ms ->
  take (m_start m) (fst (Wasm.process_matches content (m :: ms)))
  = take (m_start m) content.
Proof.
  intros E.
  pose proof (finditer_ordered Wasm.test_pattern content) as Ho.
  rewrite E in Ho.
  assert (Hall : Forall (fun x => x ∈ finditer Wasm.test_pattern content)
                   (m :: ms)).
  { rewrite E. apply Forall_forall. auto. }
  exact (proj2 (process_matches_prefix content (m :: ms) _ Ho Hall)).
Qed.

Lemma text_before_first_test_kept_witness :
  let content := txt "use tegdb::Database;" ++ nl :: Samples.nested_file in
  take 21 (fst (Wasm.process_matches content
                  (finditer Wasm.test_pattern content)))
  = take 21 content.
Proof.
  intros content.
  apply (text_before_first_test_kept content
           (Match 21 124 [(3, (73, 123)); (2, (61, 71)); (1, (32, 55))]) []).
  vm_compute. reflexivity.
Defined.

End LocatedFacts.
